(** * L-system turtle graphics: [TurtleBase] and [LTurtle] of l_system.hpp

    A shallow embedding of the turtle state machine and of the grammar
    interpreter, followed by the properties the specification states
    about them.

    Layout of the development:
    - [F32]: the C++ [float] as IEEE-754 binary32, built on the executable
      specification of the Standard Library ([SpecFloat], precision 24,
      [emax] 128, round to nearest even);
    - [glm]: the vector, quaternion and matrix operations the turtle calls;
    - [TurtleBase]: position, frame, brush width and the state stack;
    - [LTurtle]: the rule table, [run] and [process];
    - the theorems. *)

From Stdlib Require Import ZArith NArith Lia Bool Ascii String List.
From Stdlib Require Import Floats.SpecFloat.
From stdpp Require Import base option list strings gmap.

Local Open Scope Z_scope.

(* ===================================================================== *)
(** ** binary32 arithmetic *)
(* ===================================================================== *)

Module F32.

Definition prec : Z := 24.
Definition emax : Z := 128.

(** A C++ [float]: sign, mantissa and exponent, or a zero, an infinity
    or a NaN. *)
Definition float : Type := spec_float.

Definition add (a b : float) : float := SFadd prec emax a b.
Definition sub (a b : float) : float := SFsub prec emax a b.
Definition mul (a b : float) : float := SFmul prec emax a b.
Definition div (a b : float) : float := SFdiv prec emax a b.
Definition sqrt (a : float) : float := SFsqrt prec emax a.
Definition neg (a : float) : float := SFopp a.

(** [a > b] of C++: false as soon as one side is a NaN. *)
Definition gt (a b : float) : bool := SFltb b a.

(** The value [m * 2^e], rounded. *)
Definition of_Z_exp (m e : Z) : float := binary_normalize prec emax m e false.

Definition zero : float := S754_zero false.
Definition one : float := Eval vm_compute in of_Z_exp 1 0.
Definition two : float := Eval vm_compute in of_Z_exp 2 0.
Definition half : float := Eval vm_compute in of_Z_exp 1 (-1).

(** A float the hardware can hold: canonical mantissa, exponent in
    range. *)
Definition valid (a : float) : bool := valid_binary prec emax a.

(** The C++ literals of the scenarios, each the float nearest to the
    decimal. *)
Definition f0_9 : float := Eval vm_compute in div (of_Z_exp 9 0) (of_Z_exp 10 0).
Definition f0_45 : float := Eval vm_compute in div (of_Z_exp 45 0) (of_Z_exp 100 0).
(** 90 degrees in radians: [pi/2] lies between 13176794 * 2^-23 and
    13176795 * 2^-23, nearer to the second. *)
Definition pi_2 : float := S754_finite false 13176795 (-23).

End F32.

Abbreviation float := F32.float.

Declare Scope f32_scope.
Delimit Scope f32_scope with f32.
Infix "+" := F32.add : f32_scope.
Infix "-" := F32.sub : f32_scope.
Infix "*" := F32.mul : f32_scope.
Infix "/" := F32.div : f32_scope.
Notation "- x" := (F32.neg x) : f32_scope.

(** The two functions of the C math library the rotation needs. They are
    not part of the program: the development is parametric in them. *)
Class Libm : Type := {
  sinf : float -> float;
  cosf : float -> float
}.

(* ===================================================================== *)
(** ** The GLM operations used by the turtle *)
(* ===================================================================== *)

(** Modelled from the spec: the header glm_headers.hpp and the GLM library
    behind it are not part of the sources. The spec names the operations
    (normalize, cross product, angle-axis rotation); their arithmetic is
    GLM's generic (non-SIMD) implementation, one float operation per C++
    operator, evaluated left to right. *)
Module glm.

Local Open Scope f32_scope.

Record vec2 : Type := mkvec2 { x2 : float; y2 : float }.
Record vec3 : Type := mkvec3 { x : float; y : float; z : float }.

(** A quaternion [w + xi + yj + zk]. *)
Record quat : Type := mkquat { qw : float; qx : float; qy : float; qz : float }.

(** A 3x3 matrix, stored by columns as GLM does: [col0 m] is [m[0]]. *)
Record mat3 : Type := mkmat3 { col0 : vec3; col1 : vec3; col2 : vec3 }.

(** [a + b] on vectors *)
Definition vadd (a b : vec3) : vec3 :=
  mkvec3 (x a + x b) (y a + y b) (z a + z b).

(** [s * v], scalar on the left *)
Definition smul (s : float) (v : vec3) : vec3 :=
  mkvec3 (s * x v) (s * y v) (s * z v).

(** [v * s], scalar on the right *)
Definition vmuls (v : vec3) (s : float) : vec3 :=
  mkvec3 (x v * s) (y v * s) (z v * s).

(** [dot(a, b)]: the component products, summed left to right *)
Definition dot (a b : vec3) : float :=
  (x a * x b + y a * y b) + z a * z b.

(** [cross(a, b)] *)
Definition cross (a b : vec3) : vec3 :=
  mkvec3 (y a * z b - y b * z a)
         (z a * x b - z b * x a)
         (x a * y b - x b * y a).

(** [inversesqrt(a)] is [1 / sqrt(a)] *)
Definition inversesqrt (a : float) : float := F32.one / F32.sqrt a.

(** [length(v)] *)
Definition length (v : vec3) : float := F32.sqrt (dot v v).

(** [normalize(v)] is [v * inversesqrt(dot(v, v))] *)
Definition normalize (v : vec3) : vec3 := vmuls v (inversesqrt (dot v v)).

(** [m * v] *)
Definition mat_mul_vec (m : mat3) (v : vec3) : vec3 :=
  mkvec3 ((x (col0 m) * x v + x (col1 m) * y v) + x (col2 m) * z v)
         ((y (col0 m) * x v + y (col1 m) * y v) + y (col2 m) * z v)
         ((z (col0 m) * x v + z (col1 m) * y v) + z (col2 m) * z v).

(** [toMat3(q)], the rotation matrix of a quaternion *)
Definition toMat3 (q : quat) : mat3 :=
  let qxx := qx q * qx q in
  let qyy := qy q * qy q in
  let qzz := qz q * qz q in
  let qxz := qx q * qz q in
  let qxy := qx q * qy q in
  let qyz := qy q * qz q in
  let qwx := qw q * qx q in
  let qwy := qw q * qy q in
  let qwz := qw q * qz q in
  mkmat3
    (mkvec3 (F32.one - F32.two * (qyy + qzz))
            (F32.two * (qxy + qwz))
            (F32.two * (qxz - qwy)))
    (mkvec3 (F32.two * (qxy - qwz))
            (F32.one - F32.two * (qxx + qzz))
            (F32.two * (qyz + qwx)))
    (mkvec3 (F32.two * (qxz + qwy))
            (F32.two * (qyz - qwx))
            (F32.one - F32.two * (qxx + qyy))).

Section WithLibm.
Context `{Libm}.

(** [angleAxis(angle, v)]: the quaternion of the half angle *)
Definition angleAxis (angle : float) (v : vec3) : quat :=
  let s := sinf (angle * F32.half) in
  let r := vmuls v s in
  mkquat (cosf (angle * F32.half)) (x r) (y r) (z r).

End WithLibm.

End glm.

Abbreviation vec3 := glm.vec3.
Abbreviation vec2 := glm.vec2.

(* ===================================================================== *)
(** ** TurtleBase *)
(* ===================================================================== *)

(** The private [TurtleState] struct, with the initial values of its
    member initialisers. *)
Module TurtleState.

Record t : Type := mk {
  position : vec3;
  forward : vec3;
  left : vec3;
  up : vec3;
  brushWidth : float
}.

Definition initial : t :=
  mk (glm.mkvec3 F32.zero F32.zero F32.zero)
     (glm.mkvec3 F32.zero F32.one F32.zero)
     (glm.mkvec3 F32.zero F32.zero F32.one)
     (glm.mkvec3 F32.one F32.zero F32.zero)
     F32.one.

End TurtleState.

Module TurtleBase.

Local Open Scope f32_scope.

(** The two data members; the head of [turtleStack] is the top of the
    [std::stack]. *)
Record t : Type := mk {
  currentState : TurtleState.t;
  turtleStack : list TurtleState.t
}.

(** A freshly constructed turtle. *)
Definition initial : t := mk TurtleState.initial [].

Definition position (tb : t) : vec3 := TurtleState.position (currentState tb).
Definition forward (tb : t) : vec3 := TurtleState.forward (currentState tb).
Definition left (tb : t) : vec3 := TurtleState.left (currentState tb).
Definition up (tb : t) : vec3 := TurtleState.up (currentState tb).
Definition brush_width (tb : t) : float := TurtleState.brushWidth (currentState tb).

Definition move (distance : float) (tb : t) : t :=
  let s := currentState tb in
  mk (TurtleState.mk
        (glm.vadd (TurtleState.position s)
                  (glm.smul distance (glm.normalize (TurtleState.forward s))))
        (TurtleState.forward s) (TurtleState.left s) (TurtleState.up s)
        (TurtleState.brushWidth s))
     (turtleStack tb).

Section WithLibm.
Context `{Libm}.

Definition rotate (unit_axis : vec3) (angle_radians : float) (tb : t) : t :=
  let s := currentState tb in
  let rotationMatrix := glm.toMat3 (glm.angleAxis angle_radians unit_axis) in
  let newForward := glm.mat_mul_vec rotationMatrix (TurtleState.forward s) in
  let newLeft := glm.mat_mul_vec rotationMatrix (TurtleState.left s) in
  let newUp := glm.cross newForward newLeft in
  let newLeft' := glm.cross newUp newForward in
  mk (TurtleState.mk
        (TurtleState.position s)
        (glm.normalize newForward)
        (glm.normalize newLeft')
        (glm.normalize newUp)
        (TurtleState.brushWidth s))
     (turtleStack tb).

End WithLibm.

(** [width > 0.0] compares in double precision; widening a float is
    exact, so the test is the float comparison with zero. *)
Definition set_brush_width (width : float) (tb : t) : t :=
  if F32.gt width F32.zero then
    let s := currentState tb in
    mk (TurtleState.mk (TurtleState.position s) (TurtleState.forward s)
                       (TurtleState.left s) (TurtleState.up s) width)
       (turtleStack tb)
  else tb.

Definition push (tb : t) : t :=
  mk (currentState tb) (currentState tb :: turtleStack tb).

Definition pop (tb : t) : t :=
  match turtleStack tb with
  | [] => tb
  | lastState :: rest =>
      mk (TurtleState.mk
            (TurtleState.position lastState)
            (TurtleState.forward lastState)
            (TurtleState.left lastState)
            (TurtleState.up lastState)
            (TurtleState.brushWidth lastState))
         rest
  end.

End TurtleBase.

(* ===================================================================== *)
(** ** Output primitives *)
(* ===================================================================== *)

(** Modelled from the spec: draw_primitives.hpp is not part of the
    sources. A Branch is a start point, a start radius, an end point and
    an end radius; a Leaf is an anchor point, the two orientation vectors
    (forward, left) and a 2D size. The fields follow the order of the
    constructor arguments in [process]. *)
Record Branch : Type := mkBranch {
  branch_start : vec3;
  branch_start_radius : float;
  branch_end : vec3;
  branch_end_radius : float
}.

(** Modelled from the spec: the Leaf of draw_primitives.hpp, as described
    above. *)
Record Leaf : Type := mkLeaf {
  leaf_position : vec3;
  leaf_forward : vec3;
  leaf_left : vec3;
  leaf_size2 : vec2
}.

(* ===================================================================== *)
(** ** LTurtle *)
(* ===================================================================== *)

Module LTurtle.

Local Open Scope f32_scope.

(** [max_depth] is an [unsigned int]: the configs of the program are
    those with [max_depth < UINT_RANGE]. *)
Record Config : Type := mkConfig {
  radius : float;
  distance : float;
  leaf_size : float;
  angle_world_y : float;
  angle_turtle_left : float;
  brush_decay_coef : float;
  max_depth : N
}.

(** [unsigned int] is 32 bits wide: [depth + 1] wraps at [2^32]. *)
Definition UINT_RANGE : N := 2 ^ 32.
Definition wrap (n : N) : N := (n mod UINT_RANGE)%N.

(** [std::unordered_map<char, std::string>] *)
Abbreviation Rules := (gmap ascii string).

(** The turtle together with the two caller-owned vectors it appends
    to; [push_back] adds at the end of the list. The config and the
    rule table never change after construction: they are parameters of
    the functions below. *)
Record t : Type := mk {
  base : TurtleBase.t;
  branches : list Branch;
  leaves : list Leaf
}.

(** The state right after construction, with the vectors as the
    caller passes them. *)
Definition construct (branches_ref : list Branch) (leaves_ref : list Leaf) : t :=
  mk TurtleBase.initial branches_ref leaves_ref.

(** A [TurtleBase] method called on the derived object. *)
Definition on_base (f : TurtleBase.t -> TurtleBase.t) (lt : t) : t :=
  mk (f (base lt)) (branches lt) (leaves lt).

Definition position (lt : t) : vec3 := TurtleBase.position (base lt).
Definition forward (lt : t) : vec3 := TurtleBase.forward (base lt).
Definition left (lt : t) : vec3 := TurtleBase.left (base lt).
Definition up (lt : t) : vec3 := TurtleBase.up (base lt).
Definition brush_width (lt : t) : float := TurtleBase.brush_width (base lt).

Definition push_back_leaf (l : Leaf) (lt : t) : t :=
  mk (base lt) (branches lt) (leaves lt ++ [l]).
Definition push_back_branch (b : Branch) (lt : t) : t :=
  mk (base lt) (branches lt ++ [b]) (leaves lt).

(** The range-for of a [std::string]: the body runs on each character
    in order; here a body may run out of fuel, which ends the loop. *)
Fixpoint for_each (body : ascii -> t -> option t) (cs : list ascii) (lt : t)
  : option t :=
  match cs with
  | [] => Some lt
  | c :: cs' =>
      match body c lt with
      | Some lt' => for_each body cs' lt'
      | None => None
      end
  end.

Section WithConfig.
Context `{Libm}.
Variable cfg : Config.
Variable rules : Rules.

(** The world-up axis [glm::vec3(0.0f, 1.0f, 0.0f)] *)
Definition world_y : vec3 := glm.mkvec3 F32.zero F32.one F32.zero.

Definition process (symbol : ascii) (lt : t) : t :=
  match symbol with
  | "L"%char =>
      let lt1 :=
        push_back_leaf
          (mkLeaf (position lt) (forward lt) (left lt)
                  (glm.mkvec2 (leaf_size cfg * brush_width lt)
                              (leaf_size cfg * brush_width lt * F32.two)))
          lt in
      on_base (TurtleBase.move (distance cfg * brush_width lt1)) lt1
  | "l"%char =>
      let lt1 :=
        push_back_leaf
          (mkLeaf (position lt) (forward lt) (left lt)
                  (glm.mkvec2 (leaf_size cfg * brush_width lt)
                              (leaf_size cfg * brush_width lt * F32.two)))
          lt in
      on_base (TurtleBase.move (distance cfg * brush_width lt1)) lt1
  | "B"%char =>
      let lt1 :=
        push_back_branch
          (mkBranch (position lt) (radius cfg * brush_width lt)
                    (glm.vadd (position lt)
                              (glm.smul (distance cfg * brush_width lt) (forward lt)))
                    (brush_decay_coef cfg * radius cfg * brush_width lt))
          lt in
      on_base (TurtleBase.move (distance cfg * brush_width lt1)) lt1
  | "M"%char =>
      on_base (TurtleBase.move (distance cfg * brush_width lt)) lt
  | "+"%char =>
      on_base (TurtleBase.rotate world_y (angle_world_y cfg)) lt
  | "-"%char =>
      on_base (TurtleBase.rotate world_y (- angle_world_y cfg)) lt
  | "&"%char =>
      on_base (TurtleBase.rotate (glm.normalize (left lt)) (angle_turtle_left cfg)) lt
  | "^"%char =>
      on_base (TurtleBase.rotate (glm.normalize (left lt)) (- angle_turtle_left cfg)) lt
  | "*"%char =>
      on_base (TurtleBase.set_brush_width (brush_decay_coef cfg * brush_width lt)) lt
  | "["%char => on_base TurtleBase.push lt
  | "]"%char => on_base TurtleBase.pop lt
  | _ => lt
  end.

(** [run]: the fuel bounds how deep calls may nest, one unit for each
    call on the C++ call stack; [None] means a call was needed with no
    fuel left. *)
Fixpoint run (fuel : nat) (sentence : string) (depth : N) (lt : t) : option t :=
  match fuel with
  | O => None
  | S fuel' =>
      if (depth <? max_depth cfg)%N then
        for_each
          (fun c lt0 =>
             match rules !! c with
             | None => Some (process c lt0)
             | Some replacement => run fuel' replacement (wrap (depth + 1)) lt0
             end)
          (list_ascii_of_string sentence) lt
      else
        for_each (fun c lt0 => Some (process c lt0))
                 (list_ascii_of_string sentence) lt
  end.

End WithConfig.

End LTurtle.

(* ===================================================================== *)
(** ** Notions the specification uses *)
(* ===================================================================== *)

(** Interpreting a symbol sequence directly: [process] on each symbol,
    left to right. *)
Definition interpret `{Libm} (cfg : LTurtle.Config) (cs : list ascii)
    (lt : LTurtle.t) : LTurtle.t :=
  foldl (fun lt0 c => LTurtle.process cfg c lt0) lt cs.

(** The terminal yield of the rewriting tree, as the specification words
    it: with [n] levels of rewriting left, a symbol with a rule stands for
    the yield of its replacement with [n - 1] levels left, a symbol
    without a rule stands for itself; with no level left every symbol
    stands for itself. *)
Fixpoint terminal_yield (rules : LTurtle.Rules) (n : nat) (cs : list ascii)
  : list ascii :=
  match n with
  | O => cs
  | S n' =>
      flat_map
        (fun c =>
           match rules !! c with
           | Some replacement =>
               terminal_yield rules n' (list_ascii_of_string replacement)
           | None => [c]
           end)
        cs
  end.

(** The fuel that [run] needs when started at [depth]: one unit for the
    call itself and one for each level below the ceiling. *)
Definition enough_fuel (cfg : LTurtle.Config) (depth : N) : nat :=
  S (N.to_nat (LTurtle.max_depth cfg - depth)).

(** The Leaf that [process] appends for ['L'] and ['l']. *)
Definition leaf_of (cfg : LTurtle.Config) (lt : LTurtle.t) : Leaf :=
  mkLeaf (LTurtle.position lt) (LTurtle.forward lt) (LTurtle.left lt)
    (glm.mkvec2
       (LTurtle.leaf_size cfg * LTurtle.brush_width lt)%f32
       (LTurtle.leaf_size cfg * LTurtle.brush_width lt * F32.two)%f32).

(** The Branch that [process] appends for ['B']. *)
Definition branch_of (cfg : LTurtle.Config) (lt : LTurtle.t) : Branch :=
  mkBranch (LTurtle.position lt)
    (LTurtle.radius cfg * LTurtle.brush_width lt)%f32
    (glm.vadd (LTurtle.position lt)
       (glm.smul (LTurtle.distance cfg * LTurtle.brush_width lt)%f32
                 (LTurtle.forward lt)))
    (LTurtle.brush_decay_coef cfg * LTurtle.radius cfg
     * LTurtle.brush_width lt)%f32.

(** The symbols of the command table of [process]. *)
Definition command_symbols : list ascii :=
  ["L"; "l"; "B"; "M"; "+"; "-"; "&"; "^"; "*"; "["; "]"]%char.

Definition is_command (c : ascii) : bool :=
  existsb (Ascii.eqb c) command_symbols.

(** What one symbol does to the agent alone: [process] on a turtle with
    empty output vectors, projected on its base. *)
Definition agent_step `{Libm} (cfg : LTurtle.Config) (c : ascii)
    (tb : TurtleBase.t) : TurtleBase.t :=
  LTurtle.base (LTurtle.process cfg c (LTurtle.mk tb [] [])).

(** The operations of the agent as data, to speak of sequences of calls
    with arbitrary arguments. *)
Inductive Command : Type :=
  | Move (distance : float)
  | Rotate (unit_axis : vec3) (angle_radians : float)
  | SetBrushWidth (width : float)
  | Push
  | Pop.

Definition exec `{Libm} (c : Command) (tb : TurtleBase.t) : TurtleBase.t :=
  match c with
  | Move d => TurtleBase.move d tb
  | Rotate axis angle => TurtleBase.rotate axis angle tb
  | SetBrushWidth w => TurtleBase.set_brush_width w tb
  | Push => TurtleBase.push tb
  | Pop => TurtleBase.pop tb
  end.

(** A sequence of steps on the agent, left to right. *)
Definition steps {Sym : Type} (step : Sym -> TurtleBase.t -> TurtleBase.t)
    (cs : list Sym) (tb : TurtleBase.t) : TurtleBase.t :=
  foldl (fun tb0 c => step c tb0) tb cs.

Definition exec_all `{Libm} : list Command -> TurtleBase.t -> TurtleBase.t :=
  steps exec.

(** How a step takes part in the bracket discipline. *)
Variant Bracket : Type := Open | Close | Plain.

Definition command_bracket (c : Command) : Bracket :=
  match c with
  | Push => Open
  | Pop => Close
  | _ => Plain
  end.

Definition symbol_bracket (c : ascii) : Bracket :=
  if Ascii.eqb c "["%char then Open
  else if Ascii.eqb c "]"%char then Close
  else Plain.

Section Brackets.
Context {Sym : Type}.
Variable bracket : Sym -> Bracket.

(** Sequences in which every push has its pop and every pop its push. *)
Inductive balanced : list Sym -> Prop :=
  | balanced_nil : balanced []
  | balanced_plain c s :
      bracket c = Plain -> balanced s -> balanced (c :: s)
  | balanced_group o body c s :
      bracket o = Open -> bracket c = Close ->
      balanced body -> balanced s ->
      balanced (o :: body ++ c :: s).

(** [erased s s']: [s'] is [s] with some of its bracketed groups (a
    push, a balanced body, the matching pop) replaced by nothing; in
    particular with every one of them. *)
Inductive erased : list Sym -> list Sym -> Prop :=
  | erased_nil : erased [] []
  | erased_keep c s s' : erased s s' -> erased (c :: s) (c :: s')
  | erased_group o body c s s' :
      bracket o = Open -> bracket c = Close ->
      balanced body -> erased s s' ->
      erased (o :: body ++ c :: s) s'.

End Brackets.

(** The invariant behind [brushWidth > 0]: the current width is positive
    and so is every width saved on the stack. *)
Definition width_positive (s : TurtleState.t) : Prop :=
  F32.gt (TurtleState.brushWidth s) F32.zero = true.

Definition widths_positive (tb : TurtleBase.t) : Prop :=
  width_positive (TurtleBase.currentState tb)
  /\ Forall width_positive (TurtleBase.turtleStack tb).

(** A small math library to evaluate examples with: the first terms of
    the Taylor series at zero, in binary32 arithmetic. *)
Definition taylor_libm : Libm := {|
  sinf a := (a - a * a * a / F32.of_Z_exp 6 0)%f32;
  cosf a := (F32.one - a * a / F32.two)%f32
|}.

(** The turtle [lt] as it would be had the caller's vectors held [bs]
    and [ls] before everything [lt] holds. *)
Definition prepend_outputs (bs : list Branch) (ls : list Leaf)
    (lt : LTurtle.t) : LTurtle.t :=
  LTurtle.mk (LTurtle.base lt)
             (bs ++ LTurtle.branches lt) (ls ++ LTurtle.leaves lt).

(** Membership of a symbol in a list of symbols, and the number of
    symbols of a sequence that belong to it. *)
Definition one_of (symbols : list ascii) (c : ascii) : bool :=
  existsb (Ascii.eqb c) symbols.

Definition count_of (symbols : list ascii) (cs : list ascii) : nat :=
  List.length (List.filter (one_of symbols) cs).

Definition none_of (symbols : list ascii) (cs : list ascii) : bool :=
  forallb (fun c => negb (one_of symbols c)) cs.

(** The symbols by what their case of [process] calls. *)
Definition branch_symbols : list ascii := ["B"]%char.
Definition leaf_symbols : list ascii := ["L"; "l"]%char.

(** The symbols whose case of [process] can write the position, the
    frame (forward, left, up) and the brush width. *)
Definition position_writers : list ascii := ["L"; "l"; "B"; "M"; "]"]%char.
Definition frame_writers : list ascii := ["+"; "-"; "&"; "^"; "]"]%char.
Definition width_writers : list ascii := ["*"; "]"]%char.

(** A drawing symbol replaced by the plain move. *)
Definition undraw (c : ascii) : ascii :=
  if one_of ["L"; "l"; "B"]%char c then "M"%char else c.

(** A Branch and a Leaf whose sizes come from some positive brush width,
    by the formulas of [process]. *)
Definition branch_from_width (cfg : LTurtle.Config) (b : Branch) : Prop :=
  exists w : float,
    F32.gt w F32.zero = true
    /\ branch_start_radius b = (LTurtle.radius cfg * w)%f32
    /\ branch_end_radius b
       = (LTurtle.brush_decay_coef cfg * LTurtle.radius cfg * w)%f32.

Definition leaf_from_width (cfg : LTurtle.Config) (l : Leaf) : Prop :=
  exists w : float,
    F32.gt w F32.zero = true
    /\ leaf_size2 l
       = glm.mkvec2 (LTurtle.leaf_size cfg * w)%f32
                    (LTurtle.leaf_size cfg * w * F32.two)%f32.

(** Positive widths everywhere in the agent, and every primitive sized
    from a positive width. *)
Definition sizes_from_widths (cfg : LTurtle.Config) (lt : LTurtle.t) : Prop :=
  widths_positive (LTurtle.base lt)
  /\ Forall (branch_from_width cfg) (LTurtle.branches lt)
  /\ Forall (leaf_from_width cfg) (LTurtle.leaves lt).

(** The widths the guard of [set_brush_width] lets through: the positive
    finite ones and plus infinity; not NaN, not a zero of either sign,
    nothing negative. *)
Definition accepted_width (w : float) : bool :=
  match w with
  | S754_finite false _ _ => true
  | S754_infinity false => true
  | _ => false
  end.

(** The float nearest to 0.16, an angle in radians, and its half. *)
Definition f0_16 : float :=
  Eval vm_compute in F32.div (F32.of_Z_exp 16 0) (F32.of_Z_exp 100 0).
Definition f0_08 : float := Eval vm_compute in F32.mul f0_16 F32.half.

(** Half of the 90 degree angle [F32.pi_2], the argument [angleAxis]
    gives to the sine and the cosine. *)
Definition quarter_pi : float := Eval vm_compute in F32.mul F32.pi_2 F32.half.

(** The floats nearest to the sine and to the cosine of [quarter_pi]
    (both 0.70710677) and of [f0_08] (0.07991469 and 0.99680173): the
    values a C library that rounds correctly returns there. *)
Definition sin_quarter_pi : float := S754_finite false 11863283 (-24).
Definition cos_quarter_pi : float := S754_finite false 11863283 (-24).
Definition sin_0_08 : float := S754_finite false 10725968 (-27).
Definition cos_0_08 : float := S754_finite false 16723558 (-24).

(** A math library for the examples that involve a rotation: NaN for a
    NaN, the correctly rounded values at plus and minus [quarter_pi] and
    [f0_08], and the polynomials of [taylor_libm] elsewhere. *)
Definition rounded_libm : Libm := {|
  sinf a :=
    match a with
    | S754_nan => S754_nan
    | _ =>
        if SFeqb a quarter_pi then sin_quarter_pi
        else if SFeqb a (F32.neg quarter_pi) then F32.neg sin_quarter_pi
        else if SFeqb a f0_08 then sin_0_08
        else if SFeqb a (F32.neg f0_08) then F32.neg sin_0_08
        else @sinf taylor_libm a
    end;
  cosf a :=
    match a with
    | S754_nan => S754_nan
    | _ =>
        if SFeqb a quarter_pi then cos_quarter_pi
        else if SFeqb a (F32.neg quarter_pi) then cos_quarter_pi
        else if SFeqb a f0_08 then cos_0_08
        else if SFeqb a (F32.neg f0_08) then cos_0_08
        else @cosf taylor_libm a
    end
|}.

(** The tolerance 1e-5 of the orthonormality test, as a float. *)
Definition tolerance : float :=
  Eval vm_compute in F32.div (F32.of_Z_exp 1 0) (F32.of_Z_exp 100000 0).

(** [|a - b| < tol], false as soon as a NaN is involved. *)
Definition within (tol a b : float) : bool :=
  SFltb (SFabs (F32.sub a b)) tol.

(** The frame of a state is orthonormal within [tol]: the three dot
    products are within [tol] of 0 and the three lengths within [tol]
    of 1. *)
Definition orthonormal_within (tol : float) (s : TurtleState.t) : bool :=
  let f := TurtleState.forward s in
  let l := TurtleState.left s in
  let u := TurtleState.up s in
  within tol (glm.dot f l) F32.zero
  && within tol (glm.dot f u) F32.zero
  && within tol (glm.dot l u) F32.zero
  && within tol (glm.length f) F32.one
  && within tol (glm.length l) F32.one
  && within tol (glm.length u) F32.one.



(** Two math libraries return the same sine and cosine for the half
    angle that [rotate] by [angle] asks for. *)
Definition libm_agree (L1 L2 : Libm) (angle : float) : Prop :=
  @sinf L1 (angle * F32.half)%f32 = @sinf L2 (angle * F32.half)%f32
  /\ @cosf L1 (angle * F32.half)%f32 = @cosf L2 (angle * F32.half)%f32.


(* ===================================================================== *)
(** ** Properties of [run] *)
(* ===================================================================== *)

Section RunFacts.
Context `{Libm}.
Variable cfg : LTurtle.Config.
Variable rules : LTurtle.Rules.

Lemma interpret_app (a b : list ascii) (lt : LTurtle.t) :
  interpret cfg (a ++ b) lt = interpret cfg b (interpret cfg a lt).
Proof. unfold interpret. apply foldl_app. Qed.

Lemma interpret_cons (c : ascii) (cs : list ascii) (lt : LTurtle.t) :
  interpret cfg (c :: cs) lt = interpret cfg cs (LTurtle.process cfg c lt).
Proof. reflexivity. Qed.

(** A loop whose body always returns is the direct interpretation. *)
Lemma for_each_process (cs : list ascii) (lt : LTurtle.t) :
  LTurtle.for_each (fun c lt0 => Some (LTurtle.process cfg c lt0)) cs lt
  = Some (interpret cfg cs lt).
Proof.
  revert lt. induction cs as [|c cs IH]; intros lt; [reflexivity|].
  simpl. apply IH.
Qed.

(** The loop of the rewriting branch, once each nested call is known to
    return the interpretation of some sequence. *)
Lemma for_each_yield (body : ascii -> LTurtle.t -> option LTurtle.t)
    (expand : ascii -> list ascii) (cs : list ascii) :
  (forall c lt, body c lt = Some (interpret cfg (expand c) lt)) ->
  forall lt,
    LTurtle.for_each body cs lt = Some (interpret cfg (flat_map expand cs) lt).
Proof.
  intros Hbody. induction cs as [|c cs IH]; intros lt; [reflexivity|].
  simpl. rewrite Hbody, IH, interpret_app. reflexivity.
Qed.

Lemma wrap_below_ceiling (depth : N) :
  (LTurtle.max_depth cfg < LTurtle.UINT_RANGE)%N ->
  (depth < LTurtle.max_depth cfg)%N ->
  LTurtle.wrap (depth + 1) = (depth + 1)%N.
Proof.
  intros Hmax Hlt. unfold LTurtle.wrap. apply N.mod_small. lia.
Qed.

(** [run] with [n] levels left below the ceiling interprets the yield
    of its sentence, whatever fuel it is given beyond the levels. *)
Lemma run_levels (Hmax : (LTurtle.max_depth cfg < LTurtle.UINT_RANGE)%N) :
  forall (fuel : nat) (sentence : string) (depth : N) (lt : LTurtle.t),
    (N.to_nat (LTurtle.max_depth cfg - depth) < fuel)%nat ->
    LTurtle.run cfg rules fuel sentence depth lt
    = Some (interpret cfg
              (terminal_yield rules (N.to_nat (LTurtle.max_depth cfg - depth))
                     (list_ascii_of_string sentence))
              lt).
Proof.
  induction fuel as [|fuel IH]; intros sentence depth lt Hfuel; [lia|].
  simpl. destruct (N.ltb_spec depth (LTurtle.max_depth cfg)) as [Hlt|Hge].
  - replace (N.to_nat (LTurtle.max_depth cfg - depth))
      with (S (N.to_nat (LTurtle.max_depth cfg - (depth + 1)))) in * by lia.
    simpl. apply for_each_yield. intros c lt0.
    destruct (rules !! c) as [replacement|]; [|reflexivity].
    rewrite wrap_below_ceiling by assumption.
    apply IH. lia.
  - replace (N.to_nat (LTurtle.max_depth cfg - depth)) with O by lia.
    simpl. apply for_each_process.
Qed.

End RunFacts.

(* ===================================================================== *)
(** ** Properties of the arithmetic *)
(* ===================================================================== *)

Section FloatFacts.

Lemma digits2_pos_shift23 (m : positive) :
  Z.pos (digits2_pos (8388608 * m)) = Z.pos (digits2_pos m) + 23.
Proof. cbv [Pos.mul]. cbn [digits2_pos]. lia. Qed.

(** Shifting [m * 2^23] right by 23 bits loses nothing. *)
Lemma shr_23 (m : positive) :
  SpecFloat.iter_pos shr_1 23
    {| shr_m := Z.pos (8388608 * m); shr_r := false; shr_s := false |}
  = {| shr_m := Z.pos m; shr_r := false; shr_s := false |}.
Proof. reflexivity. Qed.

(** [a * 1.0f] is [a], bit for bit. *)
Lemma mul_one_r (a : float) : F32.valid a = true -> F32.mul a F32.one = a.
Proof.
  destruct a as [s|s| |s m e]; intros Hv.
  - destruct s; reflexivity.
  - destruct s; reflexivity.
  - reflexivity.
  - unfold F32.valid, valid_binary, bounded, canonical_mantissa in Hv.
    apply andb_true_iff in Hv. destruct Hv as [Hc Hb].
    apply Z.eqb_eq in Hc.
    unfold F32.mul, F32.one, SFmul. rewrite xorb_false_r, Pos.mul_comm.
    unfold binary_round_aux, shr_fexp.
    cbn [Zdigits2]. rewrite digits2_pos_shift23.
    replace (Z.pos (digits2_pos m) + 23 + (e + -23))
      with (Z.pos (digits2_pos m) + e) by lia.
    rewrite Hc.
    replace (e - (e + -23)) with 23 by lia.
    cbn [shr shr_record_of_loc]. rewrite shr_23.
    cbn [shr_m loc_of_shr_record round_nearest_even Zdigits2].
    replace (e + -23 + 23) with e by lia.
    rewrite Hc, Z.sub_diag. cbn [shr shr_m]. rewrite Hb. reflexivity.
Qed.

Lemma div_one_one : F32.div F32.one F32.one = F32.one.
Proof. reflexivity. Qed.

(** A vector whose computed length is [1.0f] is its own normalisation:
    the scale factor [1 / sqrt(dot(v, v))] is [1 / 1]. *)
Lemma normalize_unit (v : vec3) :
  glm.length v = F32.one ->
  F32.valid (glm.x v) = true ->
  F32.valid (glm.y v) = true ->
  F32.valid (glm.z v) = true ->
  glm.normalize v = v.
Proof.
  intros Hlen Hx Hy Hz. unfold glm.normalize, glm.inversesqrt.
  unfold glm.length in Hlen. rewrite Hlen, div_one_one.
  destruct v as [a b c]. unfold glm.vmuls. simpl in *.
  rewrite !mul_one_r by assumption. reflexivity.
Qed.

End FloatFacts.

(* ===================================================================== *)
(** ** Properties of the agent's operations *)
(* ===================================================================== *)

Section AgentFacts.
Context `{Libm}.

Lemma move_stack d tb :
  TurtleBase.turtleStack (TurtleBase.move d tb) = TurtleBase.turtleStack tb.
Proof. reflexivity. Qed.

Lemma rotate_stack axis angle tb :
  TurtleBase.turtleStack (TurtleBase.rotate axis angle tb)
  = TurtleBase.turtleStack tb.
Proof. reflexivity. Qed.

Lemma set_brush_width_stack w tb :
  TurtleBase.turtleStack (TurtleBase.set_brush_width w tb)
  = TurtleBase.turtleStack tb.
Proof. unfold TurtleBase.set_brush_width. destruct (F32.gt w F32.zero); reflexivity. Qed.

(** [pop] right after [push], with the stack in between untouched,
    gives back the very state that was pushed. *)
Lemma pop_restores tb tb' :
  TurtleBase.turtleStack tb'
  = TurtleBase.currentState tb :: TurtleBase.turtleStack tb ->
  TurtleBase.pop tb' = tb.
Proof.
  intros Hstack. unfold TurtleBase.pop. rewrite Hstack.
  destruct tb as [[p f l u w] st]. reflexivity.
Qed.

Lemma move_widths d tb : widths_positive tb -> widths_positive (TurtleBase.move d tb).
Proof. intros [Hc Hs]. split; assumption. Qed.

Lemma rotate_widths axis angle tb :
  widths_positive tb -> widths_positive (TurtleBase.rotate axis angle tb).
Proof. intros [Hc Hs]. split; assumption. Qed.

Lemma set_brush_width_widths w tb :
  widths_positive tb -> widths_positive (TurtleBase.set_brush_width w tb).
Proof.
  intros [Hc Hs]. unfold TurtleBase.set_brush_width.
  destruct (F32.gt w F32.zero) eqn:Hw; split; assumption.
Qed.

Lemma push_widths tb : widths_positive tb -> widths_positive (TurtleBase.push tb).
Proof. intros [Hc Hs]. split; [assumption|]. constructor; assumption. Qed.

Lemma pop_widths tb : widths_positive tb -> widths_positive (TurtleBase.pop tb).
Proof.
  intros [Hc Hs]. unfold TurtleBase.pop.
  destruct (TurtleBase.turtleStack tb) as [|s st] eqn:Hst; [split; [assumption|]|].
  - rewrite Hst. constructor.
  - inversion Hs as [|? ? Hs1 Hs2]; subst. split; assumption.
Qed.

Lemma initial_widths : widths_positive TurtleBase.initial.
Proof. split; [reflexivity|constructor]. Qed.

Lemma exec_widths c tb : widths_positive tb -> widths_positive (exec c tb).
Proof.
  destruct c; simpl;
    auto using move_widths, rotate_widths, set_brush_width_widths,
               push_widths, pop_widths.
Qed.

Lemma exec_plain_stack c tb :
  command_bracket c = Plain ->
  TurtleBase.turtleStack (exec c tb) = TurtleBase.turtleStack tb.
Proof.
  destruct c; simpl; intros Hk; try discriminate;
    auto using move_stack, rotate_stack, set_brush_width_stack.
Qed.

End AgentFacts.

(* ===================================================================== *)
(** ** Properties of [process] *)
(* ===================================================================== *)

(** Case analysis on the eight bits of a symbol. *)
Ltac each_symbol c := destruct c as [[] [] [] [] [] [] [] []].

Section ProcessFacts.
Context `{Libm}.
Variable cfg : LTurtle.Config.

(** What [process] does to the agent depends on the agent only. *)
Lemma process_base c lt :
  LTurtle.base (LTurtle.process cfg c lt) = agent_step cfg c (LTurtle.base lt).
Proof. destruct lt as [tb bs ls]. each_symbol c; reflexivity. Qed.

Lemma process_not_command c lt :
  is_command c = false -> LTurtle.process cfg c lt = lt.
Proof. each_symbol c; intros Hc; solve [reflexivity | discriminate Hc]. Qed.

Lemma symbol_open c : symbol_bracket c = Open -> c = "["%char.
Proof.
  unfold symbol_bracket. destruct (Ascii.eqb_spec c "["%char) as [->|_]; [reflexivity|].
  destruct (Ascii.eqb c "]"%char); discriminate.
Qed.

Lemma symbol_close c : symbol_bracket c = Close -> c = "]"%char.
Proof.
  unfold symbol_bracket. destruct (Ascii.eqb c "["%char); [discriminate|].
  destruct (Ascii.eqb_spec c "]"%char) as [->|_]; [reflexivity|discriminate].
Qed.

Lemma agent_step_plain_stack c tb :
  symbol_bracket c = Plain ->
  TurtleBase.turtleStack (agent_step cfg c tb) = TurtleBase.turtleStack tb.
Proof.
  each_symbol c; intros Hc; try discriminate Hc; try reflexivity.
  apply set_brush_width_stack.
Qed.

Lemma agent_step_widths c tb :
  widths_positive tb -> widths_positive (agent_step cfg c tb).
Proof.
  intros Hw. each_symbol c; try exact Hw;
    first [ apply move_widths | apply rotate_widths | apply set_brush_width_widths
          | apply push_widths | apply pop_widths ]; exact Hw.
Qed.

Lemma interpret_widths cs lt :
  widths_positive (LTurtle.base lt) ->
  widths_positive (LTurtle.base (interpret cfg cs lt)).
Proof.
  revert lt. induction cs as [|c cs IH]; intros lt Hw; [exact Hw|].
  rewrite interpret_cons. apply IH. rewrite process_base.
  apply agent_step_widths, Hw.
Qed.

End ProcessFacts.

(* ===================================================================== *)
(** ** The bracket discipline *)
(* ===================================================================== *)

Section BracketFacts.
Context {Sym : Type}.
Variable bracket : Sym -> Bracket.
Variable step : Sym -> TurtleBase.t -> TurtleBase.t.

Hypothesis step_open :
  forall c tb, bracket c = Open -> step c tb = TurtleBase.push tb.
Hypothesis step_close :
  forall c tb, bracket c = Close -> step c tb = TurtleBase.pop tb.
Hypothesis step_plain :
  forall c tb, bracket c = Plain ->
    TurtleBase.turtleStack (step c tb) = TurtleBase.turtleStack tb.

Lemma steps_app (a b : list Sym) tb :
  steps step (a ++ b) tb = steps step b (steps step a tb).
Proof. unfold steps. apply foldl_app. Qed.

Lemma steps_cons c (cs : list Sym) tb :
  steps step (c :: cs) tb = steps step cs (step c tb).
Proof. reflexivity. Qed.

(** A push, a body that leaves the stack as it found it, and a pop. *)
Lemma group_restores_when o body c tb :
  bracket o = Open -> bracket c = Close ->
  (forall tb0, TurtleBase.turtleStack (steps step body tb0)
               = TurtleBase.turtleStack tb0) ->
  steps step (o :: body ++ [c]) tb = tb.
Proof.
  intros Ho Hc Hbody.
  rewrite steps_cons, steps_app, (step_open o) by assumption.
  simpl. rewrite (step_close c) by assumption.
  apply pop_restores. rewrite Hbody. reflexivity.
Qed.

(** A balanced sequence leaves the stack as it found it. *)
Lemma balanced_stack s :
  balanced bracket s ->
  forall tb, TurtleBase.turtleStack (steps step s tb) = TurtleBase.turtleStack tb.
Proof.
  induction 1 as [|c s Hc _ IH|o body c s Ho Hc _ IHbody _ IHs]; intros tb.
  - reflexivity.
  - rewrite steps_cons, IH. apply step_plain, Hc.
  - change (o :: body ++ c :: s) with ((o :: body) ++ [c] ++ s).
    rewrite app_assoc, steps_app, IHs.
    change ((o :: body) ++ [c]) with (o :: body ++ [c]).
    rewrite group_restores_when by assumption. reflexivity.
Qed.

Lemma group_restores o body c tb :
  bracket o = Open -> bracket c = Close -> balanced bracket body ->
  steps step (o :: body ++ [c]) tb = tb.
Proof.
  intros Ho Hc Hbody. apply group_restores_when; [assumption..|].
  apply balanced_stack, Hbody.
Qed.

(** Erasing bracketed groups does not change where the agent ends. *)
Lemma erased_steps s s' :
  erased bracket s s' -> forall tb, steps step s tb = steps step s' tb.
Proof.
  induction 1 as [|c s s' _ IH|o body c s s' Ho Hc Hbody _ IH]; intros tb.
  - reflexivity.
  - rewrite !steps_cons. apply IH.
  - change (o :: body ++ c :: s) with ((o :: body) ++ [c] ++ s).
    rewrite app_assoc, steps_app.
    change ((o :: body) ++ [c]) with (o :: body ++ [c]).
    rewrite group_restores by assumption. apply IH.
Qed.

End BracketFacts.

Section SymbolFacts.
Context `{Libm}.
Variable cfg : LTurtle.Config.
Variable rules : LTurtle.Rules.

Lemma interpret_base cs lt :
  LTurtle.base (interpret cfg cs lt)
  = steps (agent_step cfg) cs (LTurtle.base lt).
Proof.
  revert lt. induction cs as [|c cs IH]; intros lt; [reflexivity|].
  rewrite interpret_cons, IH, process_base. reflexivity.
Qed.

Lemma agent_step_open c tb :
  symbol_bracket c = Open -> agent_step cfg c tb = TurtleBase.push tb.
Proof. intros Hc. rewrite (symbol_open c Hc). reflexivity. Qed.

Lemma agent_step_close c tb :
  symbol_bracket c = Close -> agent_step cfg c tb = TurtleBase.pop tb.
Proof. intros Hc. rewrite (symbol_close c Hc). reflexivity. Qed.

(** A sentence none of whose symbols has a rule is interpreted as it
    stands, at any depth and with any ceiling. *)
Lemma run_terminal fuel sentence depth lt :
  Forall (fun c => rules !! c = None) (list_ascii_of_string sentence) ->
  LTurtle.run cfg rules (S fuel) sentence depth lt
  = Some (interpret cfg (list_ascii_of_string sentence) lt).
Proof.
  intros Hterm. simpl.
  destruct (depth <? LTurtle.max_depth cfg)%N; [|apply for_each_process].
  revert lt. induction Hterm as [|c cs Hc _ IH]; intros lt; [reflexivity|].
  simpl. rewrite Hc. apply IH.
Qed.

(** At or beyond the ceiling the rules are not consulted. *)
Lemma run_at_ceiling fuel sentence depth lt :
  (LTurtle.max_depth cfg <= depth)%N ->
  LTurtle.run cfg rules (S fuel) sentence depth lt
  = Some (interpret cfg (list_ascii_of_string sentence) lt).
Proof.
  intros Hceil. simpl.
  destruct (N.ltb_spec depth (LTurtle.max_depth cfg)) as [Hlt|_]; [lia|].
  apply for_each_process.
Qed.

End SymbolFacts.

(* ===================================================================== *)
(** ** Leaves and branches *)
(* ===================================================================== *)

Section OutputFacts.
Context `{Libm}.
Variable cfg : LTurtle.Config.

Lemma process_L lt :
  LTurtle.process cfg "L" lt
  = LTurtle.mk
      (TurtleBase.move (LTurtle.distance cfg * LTurtle.brush_width lt)%f32
                       (LTurtle.base lt))
      (LTurtle.branches lt)
      (LTurtle.leaves lt ++ [leaf_of cfg lt]).
Proof. reflexivity. Qed.

Lemma process_l lt :
  LTurtle.process cfg "l" lt
  = LTurtle.mk
      (TurtleBase.move (LTurtle.distance cfg * LTurtle.brush_width lt)%f32
                       (LTurtle.base lt))
      (LTurtle.branches lt)
      (LTurtle.leaves lt ++ [leaf_of cfg lt]).
Proof. reflexivity. Qed.

Lemma process_B lt :
  LTurtle.process cfg "B" lt
  = LTurtle.mk
      (TurtleBase.move (LTurtle.distance cfg * LTurtle.brush_width lt)%f32
                       (LTurtle.base lt))
      (LTurtle.branches lt ++ [branch_of cfg lt])
      (LTurtle.leaves lt).
Proof. reflexivity. Qed.

(** [n] symbols ['L'] in a row append [n] leaves and no branch. *)
Lemma interpret_L_count (n : nat) lt :
  let lt' := interpret cfg (replicate n "L"%char) lt in
  List.length (LTurtle.leaves lt') = (List.length (LTurtle.leaves lt) + n)%nat
  /\ LTurtle.branches lt' = LTurtle.branches lt.
Proof.
  revert lt. induction n as [|n IH]; intros lt.
  - simpl. split; [lia|reflexivity].
  - change (replicate (S n) "L"%char) with ("L"%char :: replicate n "L"%char).
    rewrite interpret_cons.
    destruct (IH (LTurtle.process cfg "L" lt)) as [Hl Hb].
    cbv zeta. rewrite Hl, Hb, process_L. cbn [LTurtle.leaves LTurtle.branches].
    rewrite length_app. simpl. split; [lia|reflexivity].
Qed.

End OutputFacts.

(* ===================================================================== *)
(** ** Properties of [rotate] *)
(* ===================================================================== *)

(** [rotate] uses the math library at one argument only, half the
    angle. *)
Lemma rotate_ext (L1 L2 : Libm) axis angle tb :
  libm_agree L1 L2 angle ->
  @TurtleBase.rotate L1 axis angle tb = @TurtleBase.rotate L2 axis angle tb.
Proof.
  intros [Hs Hc]. unfold TurtleBase.rotate, glm.angleAxis.
  rewrite Hs, Hc. reflexivity.
Qed.




(* ===================================================================== *)
(** ** The grammar interpreter *)
(* ===================================================================== *)

(** C1: [run] interprets exactly the left-to-right, depth-first terminal
    yield of the rewriting tree truncated at the depth ceiling: started at
    [depth] it returns the direct interpretation of the yield with
    [max_depth - depth] levels of rewriting left (none once
    [depth >= max_depth]). With the rule A -> AA and a ceiling of 3,
    [run] on the sentence A interprets eight symbols A; with L -> LL it
    appends eight leaves and no branch. *)
Theorem run_interprets_truncated_yield `{Libm} :
  (forall cfg rules sentence depth lt fuel,
      (LTurtle.max_depth cfg < LTurtle.UINT_RANGE)%N ->
      (enough_fuel cfg depth <= fuel)%nat ->
      LTurtle.run cfg rules fuel sentence depth lt
      = Some (interpret cfg
                (terminal_yield rules (N.to_nat (LTurtle.max_depth cfg - depth))
                       (list_ascii_of_string sentence))
                lt))
  /\ (forall cfg lt fuel,
        LTurtle.max_depth cfg = 3%N ->
        (4 <= fuel)%nat ->
        LTurtle.run cfg {[ "A"%char := "AA"%string ]} fuel "A" 0 lt
        = Some (interpret cfg (replicate 8 "A"%char) lt)
        /\ exists lt',
            LTurtle.run cfg {[ "L"%char := "LL"%string ]} fuel "L" 0 lt = Some lt'
            /\ List.length (LTurtle.leaves lt')
               = (List.length (LTurtle.leaves lt) + 8)%nat
            /\ LTurtle.branches lt' = LTurtle.branches lt).
Proof.
  split.
  - intros cfg rules sentence depth lt fuel Hmax Hfuel.
    apply run_levels; [assumption|]. unfold enough_fuel in Hfuel. lia.
  - intros cfg lt fuel Hdepth Hfuel.
    assert (Hmax : (LTurtle.max_depth cfg < LTurtle.UINT_RANGE)%N)
      by (rewrite Hdepth; reflexivity).
    assert (Hlev : N.to_nat (LTurtle.max_depth cfg - 0) = 3%nat)
      by (rewrite Hdepth; reflexivity).
    split.
    + rewrite run_levels by (assumption || lia). rewrite Hlev. reflexivity.
    + eexists. split.
      * rewrite run_levels by (assumption || lia). rewrite Hlev.
        change (terminal_yield _ 3 _) with (replicate 8 "L"%char). reflexivity.
      * apply interpret_L_count.
Qed.

Lemma run_interprets_truncated_yield_witness :
  let cfg := LTurtle.mkConfig F32.half F32.one F32.one F32.pi_2 F32.pi_2 F32.f0_9 3 in
  let lt := LTurtle.construct [] [] in
  @LTurtle.run taylor_libm cfg {[ "A"%char := "AA"%string ]} 4 "A[B]" 0 lt
  = Some (@interpret taylor_libm cfg (list_ascii_of_string "AAAAAAAA[B]") lt)
  /\ (@LTurtle.run taylor_libm cfg {[ "A"%char := "AA"%string ]} 4 "A" 0 lt
      = Some (@interpret taylor_libm cfg (replicate 8 "A"%char) lt)
      /\ exists lt',
          @LTurtle.run taylor_libm cfg {[ "L"%char := "LL"%string ]} 4 "L" 0 lt
          = Some lt'
          /\ List.length (LTurtle.leaves lt')
             = (List.length (LTurtle.leaves lt) + 8)%nat
          /\ LTurtle.branches lt' = LTurtle.branches lt).
Proof.
  intros cfg lt. split.
  - rewrite (proj1 (@run_interprets_truncated_yield taylor_libm)
               cfg {[ "A"%char := "AA"%string ]} "A[B]" 0%N lt 4%nat);
      [reflexivity | reflexivity | vm_compute; lia].
  - apply (proj2 (@run_interprets_truncated_yield taylor_libm) cfg lt 4%nat);
      [reflexivity | lia].
Defined.

(** C5: [run] returns for every sentence, rule table, config and
    starting depth: there is one result that every supply of fuel of at
    least [enough_fuel] yields, and [enough_fuel] counts one call for each
    level between the starting depth and the ceiling plus the outermost
    one, so nested calls are never more than [max_depth + 1] deep. *)
Theorem run_terminates `{Libm} cfg rules sentence depth lt :
  (LTurtle.max_depth cfg < LTurtle.UINT_RANGE)%N ->
  (exists lt', forall fuel,
      (enough_fuel cfg depth <= fuel)%nat ->
      LTurtle.run cfg rules fuel sentence depth lt = Some lt')
  /\ (enough_fuel cfg depth <= S (N.to_nat (LTurtle.max_depth cfg)))%nat.
Proof.
  intros Hmax. split.
  - eexists. intros fuel Hfuel. apply run_levels; [assumption|].
    unfold enough_fuel in Hfuel. lia.
  - unfold enough_fuel. lia.
Qed.

Lemma run_terminates_witness :
  let cfg := LTurtle.mkConfig F32.half F32.one F32.one F32.pi_2 F32.pi_2 F32.f0_9 3 in
  (exists lt', forall fuel,
      (enough_fuel cfg 0 <= fuel)%nat ->
      @LTurtle.run taylor_libm cfg {[ "A"%char := "AA"%string ]} fuel "A" 0
         (LTurtle.construct [] []) = Some lt')
  /\ (enough_fuel cfg 0 <= 4)%nat.
Proof.
  intros cfg.
  apply (@run_terminates taylor_libm cfg {[ "A"%char := "AA"%string ]} "A" 0%N
           (LTurtle.construct [] [])).
  reflexivity.
Defined.

(** With a cyclic rule the nesting does reach the ceiling: one unit of
    fuel less than [enough_fuel] and the call does not return. *)
Example run_needs_every_level `{Libm} cfg lt :
  LTurtle.max_depth cfg = 3%N ->
  LTurtle.run cfg {[ "A"%char := "AA"%string ]} 3 "A" 0 lt = None.
Proof. intros Hdepth. simpl. rewrite Hdepth. reflexivity. Qed.

(* ===================================================================== *)
(** ** The state stack *)
(* ===================================================================== *)

(** C7: [pop] on an empty stack does nothing: it returns, and position,
    forward, left, up, brush width and the stack are what they were; the
    same holds for [process] on the symbol that calls it, which also
    leaves the output vectors alone. *)
Theorem pop_empty_is_noop `{Libm} :
  (forall tb, TurtleBase.turtleStack tb = [] -> TurtleBase.pop tb = tb)
  /\ (forall cfg lt,
        TurtleBase.turtleStack (LTurtle.base lt) = [] ->
        LTurtle.process cfg "]" lt = lt).
Proof.
  split.
  - intros tb Hempty. unfold TurtleBase.pop. rewrite Hempty. reflexivity.
  - intros cfg [tb bs ls] Hempty. simpl in Hempty.
    change (LTurtle.process cfg "]" (LTurtle.mk tb bs ls))
      with (LTurtle.mk (TurtleBase.pop tb) bs ls).
    unfold TurtleBase.pop. rewrite Hempty. reflexivity.
Qed.

Lemma pop_empty_is_noop_witness :
  let cfg := LTurtle.mkConfig F32.half F32.one F32.one F32.pi_2 F32.pi_2 F32.f0_9 0 in
  TurtleBase.pop TurtleBase.initial = TurtleBase.initial
  /\ TurtleBase.pop (TurtleBase.pop (TurtleBase.push TurtleBase.initial))
     = TurtleBase.initial
  /\ @LTurtle.process taylor_libm cfg "]" (LTurtle.construct [] [])
     = LTurtle.construct [] [].
Proof.
  intros cfg. split; [|split].
  - apply (proj1 (@pop_empty_is_noop taylor_libm)). reflexivity.
  - apply (proj1 (@pop_empty_is_noop taylor_libm)
             (TurtleBase.pop (TurtleBase.push TurtleBase.initial))).
    reflexivity.
  - apply (proj2 (@pop_empty_is_noop taylor_libm) cfg (LTurtle.construct [] [])).
    reflexivity.
Defined.

(** C4: the push/pop round trip. A push, then any balanced sequence of
    moves, rotations, width settings and nested push/pop pairs, then the
    matching pop, gives back the whole agent: position, forward, left,
    up, brush width, and the stack below. Hence erasing bracketed groups
    from a sequence of commands, or from a sequence of symbols given to
    [process], does not change the state the agent ends in. *)
Theorem push_pop_round_trip `{Libm} :
  (forall body tb,
      balanced command_bracket body ->
      exec_all (Push :: body ++ [Pop]) tb = tb)
  /\ (forall cmds cmds' tb,
        erased command_bracket cmds cmds' ->
        exec_all cmds tb = exec_all cmds' tb)
  /\ (forall cfg s s' lt,
        erased symbol_bracket s s' ->
        LTurtle.base (interpret cfg s lt) = LTurtle.base (interpret cfg s' lt)).
Proof.
  split; [|split].
  - intros body tb Hbody.
    apply (group_restores command_bracket exec); try reflexivity; try assumption.
    + intros c tb0 Hc. destruct c; try discriminate Hc. reflexivity.
    + intros c tb0 Hc. destruct c; try discriminate Hc. reflexivity.
    + intros c tb0. apply exec_plain_stack.
  - intros cmds cmds' tb Herased.
    apply (erased_steps command_bracket exec); try assumption.
    + intros c tb0 Hc. destruct c; try discriminate Hc. reflexivity.
    + intros c tb0 Hc. destruct c; try discriminate Hc. reflexivity.
    + intros c tb0. apply exec_plain_stack.
  - intros cfg s s' lt Herased. rewrite !interpret_base.
    apply (erased_steps symbol_bracket (agent_step cfg)); try assumption.
    + intros c tb0. apply agent_step_open.
    + intros c tb0. apply agent_step_close.
    + intros c tb0. apply agent_step_plain_stack.
Qed.

Lemma push_pop_round_trip_witness :
  let cfg := LTurtle.mkConfig F32.half F32.one F32.one F32.pi_2 F32.pi_2 F32.f0_9 0 in
  let y := glm.mkvec3 F32.zero F32.one F32.zero in
  @exec_all taylor_libm
     (Push :: [Move F32.two; Push; SetBrushWidth F32.half; Pop;
               Rotate y F32.pi_2] ++ [Pop])
     TurtleBase.initial
  = TurtleBase.initial
  /\ @exec_all taylor_libm
       [Pop; Move F32.one; Push; Rotate y F32.pi_2; Move F32.one; Pop; Push]
       TurtleBase.initial
     = @exec_all taylor_libm [Pop; Move F32.one; Push] TurtleBase.initial
  /\ LTurtle.base (@interpret taylor_libm cfg (list_ascii_of_string "M[+M]M")
                     (LTurtle.construct [] []))
     = LTurtle.base (@interpret taylor_libm cfg (list_ascii_of_string "MM")
                       (LTurtle.construct [] [])).
Proof.
  intros cfg y. split; [|split].
  - apply (proj1 (@push_pop_round_trip taylor_libm)).
    apply balanced_plain; [reflexivity|].
    apply (balanced_group command_bracket Push [SetBrushWidth F32.half] Pop
             [Rotate y F32.pi_2]);
      try reflexivity.
    + apply balanced_plain; [reflexivity|]. apply balanced_nil.
    + apply balanced_plain; [reflexivity|]. apply balanced_nil.
  - apply (proj1 (proj2 (@push_pop_round_trip taylor_libm))).
    apply erased_keep. apply erased_keep.
    apply (erased_group command_bracket Push [Rotate y F32.pi_2; Move F32.one]
             Pop [Push] [Push]); try reflexivity.
    + apply balanced_plain; [reflexivity|].
      apply balanced_plain; [reflexivity|]. apply balanced_nil.
    + apply erased_keep. apply erased_nil.
  - apply (proj2 (proj2 (@push_pop_round_trip taylor_libm))).
    apply erased_keep.
    apply (erased_group symbol_bracket "["%char ["+"; "M"]%char "]"%char
             ["M"%char] ["M"%char]); try reflexivity.
    + apply balanced_plain; [reflexivity|].
      apply balanced_plain; [reflexivity|]. apply balanced_nil.
    + apply erased_keep. apply erased_nil.
Defined.

(* ===================================================================== *)
(** ** The command table *)
(* ===================================================================== *)

(** C9: a symbol outside the command table is discarded: [process]
    returns the turtle, agent and output vectors, as it was. Hence, when
    Q has no rule, [run] on QBQ does what [run] on B does, whatever the
    fuel, the depth and the other rules; and when B is interpreted as a
    command (it has no rule either, or the ceiling is reached) that is
    exactly one Branch appended, no Leaf, and the agent moved once. *)
Theorem unknown_symbols_discarded `{Libm} cfg :
  (forall c lt, is_command c = false -> LTurtle.process cfg c lt = lt)
  /\ (forall (rules : LTurtle.Rules) fuel depth lt,
        rules !! "Q"%char = None ->
        LTurtle.run cfg rules fuel "QBQ" depth lt
        = LTurtle.run cfg rules fuel "B" depth lt)
  /\ (forall (rules : LTurtle.Rules) fuel depth lt,
        rules !! "Q"%char = None ->
        rules !! "B"%char = None \/ (LTurtle.max_depth cfg <= depth)%N ->
        exists lt',
          LTurtle.run cfg rules (S fuel) "QBQ" depth lt = Some lt'
          /\ LTurtle.branches lt' = LTurtle.branches lt ++ [branch_of cfg lt]
          /\ LTurtle.leaves lt' = LTurtle.leaves lt
          /\ LTurtle.base lt'
             = TurtleBase.move
                 (LTurtle.distance cfg * LTurtle.brush_width lt)%f32
                 (LTurtle.base lt)).
Proof.
  split; [|split].
  - intros c lt. apply process_not_command.
  - intros rules fuel depth lt HQ.
    destruct fuel as [|fuel]; [reflexivity|].
    cbn [LTurtle.run list_ascii_of_string LTurtle.for_each].
    destruct (depth <? LTurtle.max_depth cfg)%N.
    + cbn [LTurtle.for_each]. rewrite HQ.
      rewrite (process_not_command cfg "Q"%char lt) by reflexivity.
      destruct (rules !! "B"%char) as [replacement|].
      * destruct (LTurtle.run cfg rules fuel replacement
                    (LTurtle.wrap (depth + 1)) lt) as [lt'|]; [|reflexivity].
        rewrite (process_not_command cfg "Q"%char lt') by reflexivity.
        reflexivity.
      * rewrite (process_not_command cfg "Q"%char _) by reflexivity.
        reflexivity.
    + cbn [LTurtle.for_each].
      rewrite (process_not_command cfg "Q"%char lt) by reflexivity.
      rewrite (process_not_command cfg "Q"%char _) by reflexivity.
      reflexivity.
  - intros rules fuel depth lt HQ HB. eexists. split.
    + destruct HB as [HB|Hceil].
      * apply run_terminal. repeat constructor; assumption.
      * apply run_at_ceiling, Hceil.
    + cbn [list_ascii_of_string]. rewrite !interpret_cons.
      rewrite (process_not_command cfg "Q"%char lt) by reflexivity.
      rewrite (process_not_command cfg "Q"%char _) by reflexivity.
      rewrite process_B. repeat split; reflexivity.
Qed.

Lemma unknown_symbols_discarded_witness :
  let cfg := LTurtle.mkConfig F32.half F32.one F32.one F32.pi_2 F32.pi_2 F32.f0_9 2 in
  let rules : LTurtle.Rules := {[ "B"%char := "B+B"%string ]} in
  let lt := LTurtle.construct [] [] in
  @LTurtle.process taylor_libm cfg "Q" lt = lt
  /\ @LTurtle.run taylor_libm cfg rules 3 "QBQ" 0 lt
     = @LTurtle.run taylor_libm cfg rules 3 "B" 0 lt
  /\ (exists lt',
        @LTurtle.run taylor_libm cfg ∅ 1 "QBQ" 0 lt = Some lt'
        /\ LTurtle.branches lt' = LTurtle.branches lt ++ [branch_of cfg lt]
        /\ LTurtle.leaves lt' = LTurtle.leaves lt
        /\ LTurtle.base lt'
           = TurtleBase.move (LTurtle.distance cfg * LTurtle.brush_width lt)%f32
                             (LTurtle.base lt))
  /\ (exists lt',
        @LTurtle.run taylor_libm cfg rules 1 "QBQ" 2 lt = Some lt'
        /\ LTurtle.branches lt' = LTurtle.branches lt ++ [branch_of cfg lt]
        /\ LTurtle.leaves lt' = LTurtle.leaves lt
        /\ LTurtle.base lt'
           = TurtleBase.move (LTurtle.distance cfg * LTurtle.brush_width lt)%f32
                             (LTurtle.base lt)).
Proof.
  intros cfg rules lt. split; [|split; [|split]].
  - apply (proj1 (@unknown_symbols_discarded taylor_libm cfg)). reflexivity.
  - apply (proj1 (proj2 (@unknown_symbols_discarded taylor_libm cfg))).
    reflexivity.
  - apply (proj2 (proj2 (@unknown_symbols_discarded taylor_libm cfg))
             ∅ 0%nat 0%N lt); [reflexivity|left; reflexivity].
  - apply (proj2 (proj2 (@unknown_symbols_discarded taylor_libm cfg))
             rules 0%nat 2%N lt); [reflexivity|right; vm_compute; discriminate].
Defined.

(** C8: ['L'] and ['l'] append exactly one Leaf, anchored at the current
    position, oriented by (forward, left), of size
    (leaf_size * brushWidth, leaf_size * brushWidth * 2), and then move
    the agent: the position becomes
    position + (distance * brushWidth) * normalize(forward), which is
    position + (distance * brushWidth) * forward when forward has length
    one; frame, brush width, stack and branches are untouched. With a
    decay of 0.5, a leaf size of 2.0 and no rule, the axiom *L from the
    initial state ends with a brush width of 0.5, exactly one Leaf, at
    the origin, of size (1.0, 2.0), and the agent moved along forward by
    distance * 0.5: to (0, 0.5, 0) for a distance of 1.0. *)
Theorem leaf_sizing `{Libm} :
  (forall cfg c lt,
      c = "L"%char \/ c = "l"%char ->
      LTurtle.process cfg c lt
      = LTurtle.mk
          (TurtleBase.mk
             (TurtleState.mk
                (glm.vadd (LTurtle.position lt)
                   (glm.smul (LTurtle.distance cfg * LTurtle.brush_width lt)%f32
                             (glm.normalize (LTurtle.forward lt))))
                (LTurtle.forward lt) (LTurtle.left lt) (LTurtle.up lt)
                (LTurtle.brush_width lt))
             (TurtleBase.turtleStack (LTurtle.base lt)))
          (LTurtle.branches lt)
          (LTurtle.leaves lt
             ++ [mkLeaf (LTurtle.position lt) (LTurtle.forward lt) (LTurtle.left lt)
                   (glm.mkvec2
                      (LTurtle.leaf_size cfg * LTurtle.brush_width lt)%f32
                      (LTurtle.leaf_size cfg * LTurtle.brush_width lt
                       * F32.two)%f32)]))
  /\ (forall cfg c lt,
        c = "L"%char \/ c = "l"%char ->
        glm.length (LTurtle.forward lt) = F32.one ->
        F32.valid (glm.x (LTurtle.forward lt)) = true ->
        F32.valid (glm.y (LTurtle.forward lt)) = true ->
        F32.valid (glm.z (LTurtle.forward lt)) = true ->
        LTurtle.position (LTurtle.process cfg c lt)
        = glm.vadd (LTurtle.position lt)
            (glm.smul (LTurtle.distance cfg * LTurtle.brush_width lt)%f32
                      (LTurtle.forward lt)))
  /\ (forall r d awy atl md fuel,
        let cfg := LTurtle.mkConfig r d F32.two awy atl F32.half md in
        let origin := glm.mkvec3 F32.zero F32.zero F32.zero in
        let y_axis := glm.mkvec3 F32.zero F32.one F32.zero in
        LTurtle.brush_width (LTurtle.process cfg "*" (LTurtle.construct [] []))
        = F32.half
        /\ exists lt',
            LTurtle.run cfg ∅ (S fuel) "*L" 0 (LTurtle.construct [] []) = Some lt'
            /\ LTurtle.brush_width lt' = F32.half
            /\ LTurtle.branches lt' = []
            /\ LTurtle.leaves lt'
               = [mkLeaf origin y_axis
                         (glm.mkvec3 F32.zero F32.zero F32.one)
                         (glm.mkvec2 F32.one F32.two)]
            /\ LTurtle.position lt'
               = glm.vadd origin (glm.smul (d * F32.half)%f32 y_axis)
            /\ LTurtle.forward lt' = y_axis
            /\ (d = F32.one ->
                LTurtle.position lt' = glm.mkvec3 F32.zero F32.half F32.zero)).
Proof.
  split; [|split].
  - intros cfg c lt [->| ->]; reflexivity.
  - intros cfg c lt Hc Hlen Hx Hy Hz.
    assert (Hmove : LTurtle.position (LTurtle.process cfg c lt)
                    = glm.vadd (LTurtle.position lt)
                        (glm.smul (LTurtle.distance cfg * LTurtle.brush_width lt)%f32
                                  (glm.normalize (LTurtle.forward lt))))
      by (destruct Hc as [->| ->]; reflexivity).
    rewrite Hmove, (normalize_unit _ Hlen Hx Hy Hz). reflexivity.
  - intros r d awy atl md fuel cfg origin y_axis. split; [reflexivity|].
    eexists. split.
    + apply run_terminal. repeat constructor; apply lookup_empty.
    + repeat split; try reflexivity. intros ->. reflexivity.
Qed.

Lemma leaf_sizing_witness :
  let cfg := LTurtle.mkConfig F32.half F32.one F32.two F32.pi_2 F32.pi_2 F32.half 0 in
  let turned :=
    @LTurtle.process rounded_libm cfg "&" (LTurtle.construct [] []) in
  LTurtle.leaves (@LTurtle.process rounded_libm cfg "l" (LTurtle.construct [] []))
  = [mkLeaf (glm.mkvec3 F32.zero F32.zero F32.zero)
            (glm.mkvec3 F32.zero F32.one F32.zero)
            (glm.mkvec3 F32.zero F32.zero F32.one)
            (glm.mkvec2 F32.two (F32.of_Z_exp 4 0))]
  /\ LTurtle.position (@LTurtle.process rounded_libm cfg "L" turned)
     = glm.mkvec3 (F32.neg F32.one) (S754_finite false 8388609 (-47)) F32.zero.
Proof.
  intros cfg turned. split.
  - rewrite (proj1 (@leaf_sizing rounded_libm) cfg "l"%char (LTurtle.construct [] []));
      [reflexivity | right; reflexivity].
  - rewrite (proj1 (proj2 (@leaf_sizing rounded_libm)) cfg "L"%char turned);
      [reflexivity | left; reflexivity | reflexivity..].
Defined.

(** C2: with distance 1.0, radius 0.5, decay 0.9, a world-up angle of 90
    degrees, leaf size 1.0, a ceiling of 0 and no rule, the axiom B+B from
    the initial state appends exactly two branches and no leaf. The first
    goes from (0,0,0) to (0,1,0) with radii 0.5 and 0.45 and leaves the
    agent at (0,1,0). Then the agent is rotated by 90 degrees about the
    world-up axis: with the sine and the cosine of the half angle as the
    C library returns them, forward stays (0,1,0), left turns from
    (0,0,1) to (1,-0,5.96e-08) and up from (1,0,0) to (5.96e-08,0,-1),
    an orthonormal frame within 1e-5. The second Branch starts at
    (0,1,0) and ends at (0,1,0) + 1.0 * forward, forward as the rotation
    left it, that is at (0,2,0), with the radii radius * brushWidth and
    decay * radius * brushWidth, again 0.5 and 0.45. The count, the
    first Branch, the start and the radii of the second hold for any
    sine and cosine. *)
Theorem scenario_two_branches `{Libm} (atl : float) (fuel : nat) :
  let cfg := LTurtle.mkConfig F32.half F32.one F32.one F32.pi_2 atl F32.f0_9 0 in
  let p0 := glm.mkvec3 F32.zero F32.zero F32.zero in
  let p1 := glm.mkvec3 F32.zero F32.one F32.zero in
  let p2 := glm.mkvec3 F32.zero F32.two F32.zero in
  let tiny := S754_finite false 8388609 (-47) in
  let b1 := mkBranch p0 F32.half p1 F32.f0_45 in
  let b2 := mkBranch p1 F32.half p2 F32.f0_45 in
  let frame0 (p : vec3) :=
    TurtleState.mk p (glm.mkvec3 F32.zero F32.one F32.zero)
                     (glm.mkvec3 F32.zero F32.zero F32.one)
                     (glm.mkvec3 F32.one F32.zero F32.zero) F32.one in
  let frame1 (p : vec3) :=
    TurtleState.mk p (glm.mkvec3 F32.zero F32.one F32.zero)
                     (glm.mkvec3 F32.one (S754_zero true) tiny)
                     (glm.mkvec3 tiny F32.zero (F32.neg F32.one)) F32.one in
  let rotated := TurtleBase.rotate LTurtle.world_y F32.pi_2 (TurtleBase.mk (frame0 p1) []) in
  (exists lt',
      LTurtle.run cfg ∅ (S fuel) "B+B" 0 (LTurtle.construct [] []) = Some lt'
      /\ LTurtle.branches lt'
         = [ b1;
             mkBranch p1
               (LTurtle.radius cfg * TurtleBase.brush_width rotated)%f32
               (glm.vadd p1 (glm.smul F32.one (TurtleBase.forward rotated)))
               (LTurtle.brush_decay_coef cfg * LTurtle.radius cfg
                * TurtleBase.brush_width rotated)%f32 ]
      /\ (LTurtle.radius cfg * TurtleBase.brush_width rotated)%f32 = F32.half
      /\ (LTurtle.brush_decay_coef cfg * LTurtle.radius cfg
          * TurtleBase.brush_width rotated)%f32 = F32.f0_45
      /\ LTurtle.leaves lt' = [])
  /\ (sinf (F32.pi_2 * F32.half)%f32 = sin_quarter_pi ->
      cosf (F32.pi_2 * F32.half)%f32 = cos_quarter_pi ->
      LTurtle.run cfg ∅ (S fuel) "B" 0 (LTurtle.construct [] [])
      = Some (LTurtle.mk (TurtleBase.mk (frame0 p1) []) [b1] [])
      /\ rotated = TurtleBase.mk (frame1 p1) []
      /\ orthonormal_within tolerance (frame1 p1) = true
      /\ LTurtle.run cfg ∅ (S fuel) "B+" 0 (LTurtle.construct [] [])
         = Some (LTurtle.mk (TurtleBase.mk (frame1 p1) []) [b1] [])
      /\ LTurtle.run cfg ∅ (S fuel) "B+B" 0 (LTurtle.construct [] [])
         = Some (LTurtle.mk (TurtleBase.mk (frame1 p2) []) [b1; b2] [])
      /\ branch_end b2
         = glm.vadd p1 (glm.smul F32.one (TurtleState.forward (frame1 p1)))).
Proof.
  intros cfg p0 p1 p2 tiny b1 b2 frame0 frame1 rotated. split.
  - eexists. split.
    + apply run_terminal. repeat constructor; apply lookup_empty.
    + repeat split; reflexivity.
  - intros Hs Hc.
    assert (Hturn : forall tb,
               TurtleBase.rotate LTurtle.world_y F32.pi_2 tb
               = @TurtleBase.rotate rounded_libm LTurtle.world_y F32.pi_2 tb)
      by (intros tb; apply rotate_ext; split; [exact Hs|exact Hc]).
    assert (Hplus : forall lt,
               LTurtle.process cfg "+" lt
               = @LTurtle.process rounded_libm cfg "+" lt).
    { intros lt.
      change (LTurtle.on_base (TurtleBase.rotate LTurtle.world_y F32.pi_2) lt
              = LTurtle.on_base
                  (@TurtleBase.rotate rounded_libm LTurtle.world_y F32.pi_2) lt).
      unfold LTurtle.on_base. rewrite Hturn. reflexivity. }
    split; [|split; [|split; [|split; [|split]]]].
    + rewrite run_terminal by (repeat constructor; apply lookup_empty).
      vm_compute. reflexivity.
    + unfold rotated. rewrite Hturn. vm_compute. reflexivity.
    + vm_compute. reflexivity.
    + rewrite run_terminal by (repeat constructor; apply lookup_empty).
      cbn [list_ascii_of_string]. rewrite !interpret_cons, Hplus.
      vm_compute. reflexivity.
    + rewrite run_terminal by (repeat constructor; apply lookup_empty).
      cbn [list_ascii_of_string]. rewrite !interpret_cons, Hplus.
      vm_compute. reflexivity.
    + vm_compute. reflexivity.
Qed.

Lemma scenario_two_branches_witness :
  let cfg := LTurtle.mkConfig F32.half F32.one F32.one F32.pi_2 f0_16 F32.f0_9 0 in
  let tiny := S754_finite false 8388609 (-47) in
  @LTurtle.run rounded_libm cfg ∅ 1 "B+B" 0 (LTurtle.construct [] [])
  = Some (LTurtle.mk
            (TurtleBase.mk
               (TurtleState.mk (glm.mkvec3 F32.zero F32.two F32.zero)
                  (glm.mkvec3 F32.zero F32.one F32.zero)
                  (glm.mkvec3 F32.one (S754_zero true) tiny)
                  (glm.mkvec3 tiny F32.zero (F32.neg F32.one)) F32.one) [])
            [ mkBranch (glm.mkvec3 F32.zero F32.zero F32.zero) F32.half
                       (glm.mkvec3 F32.zero F32.one F32.zero) F32.f0_45;
              mkBranch (glm.mkvec3 F32.zero F32.one F32.zero) F32.half
                       (glm.mkvec3 F32.zero F32.two F32.zero) F32.f0_45 ]
            []).
Proof.
  intros cfg tiny.
  apply (proj2 (@scenario_two_branches rounded_libm f0_16 0%nat));
    reflexivity.
Defined.

(** With the sample math library the rotation keeps forward at (0,1,0),
    and the second branch of the scenario runs from (0,1,0) to (0,2,0). *)
Example scenario_two_branches_sample :
  let cfg := LTurtle.mkConfig F32.half F32.one F32.one F32.pi_2 F32.pi_2 F32.f0_9 0 in
  option_map LTurtle.branches
    (@LTurtle.run taylor_libm cfg ∅ 1 "B+B" 0 (LTurtle.construct [] []))
  = Some [ mkBranch (glm.mkvec3 F32.zero F32.zero F32.zero) F32.half
                    (glm.mkvec3 F32.zero F32.one F32.zero) F32.f0_45;
           mkBranch (glm.mkvec3 F32.zero F32.one F32.zero) F32.half
                    (glm.mkvec3 F32.zero F32.two F32.zero) F32.f0_45 ].
Proof. vm_compute. reflexivity. Qed.

(** C10: when the forward vector has length one, the Branch that ['B']
    appends starts at the position before the command and ends at the
    position after it; a second ['B'] therefore starts its Branch where
    the first one ended. *)
Theorem branch_end_is_next_position `{Libm} cfg lt :
  glm.length (LTurtle.forward lt) = F32.one ->
  F32.valid (glm.x (LTurtle.forward lt)) = true ->
  F32.valid (glm.y (LTurtle.forward lt)) = true ->
  F32.valid (glm.z (LTurtle.forward lt)) = true ->
  let lt1 := LTurtle.process cfg "B" lt in
  let lt2 := LTurtle.process cfg "B" lt1 in
  exists b1 b2,
    LTurtle.branches lt1 = LTurtle.branches lt ++ [b1]
    /\ branch_start b1 = LTurtle.position lt
    /\ branch_end b1 = LTurtle.position lt1
    /\ LTurtle.branches lt2 = LTurtle.branches lt ++ [b1; b2]
    /\ branch_start b2 = branch_end b1
    /\ branch_end b2 = LTurtle.position lt2.
Proof.
  intros Hlen Hx Hy Hz lt1 lt2.
  assert (Hnorm := normalize_unit _ Hlen Hx Hy Hz).
  assert (Hend : forall lt0,
             glm.normalize (LTurtle.forward lt0) = LTurtle.forward lt0 ->
             branch_end (branch_of cfg lt0)
             = LTurtle.position (LTurtle.process cfg "B" lt0)).
  { intros lt0 Hn. rewrite process_B.
    unfold LTurtle.position, TurtleBase.position, TurtleBase.move. simpl.
    unfold LTurtle.forward, TurtleBase.forward in Hn. rewrite Hn. reflexivity. }
  exists (branch_of cfg lt), (branch_of cfg lt1).
  assert (Hfwd : LTurtle.forward lt1 = LTurtle.forward lt) by reflexivity.
  split; [reflexivity|]. split; [reflexivity|].
  split; [apply Hend, Hnorm|].
  split; [unfold lt2; rewrite process_B; simpl; rewrite <- app_assoc; reflexivity|].
  split; [symmetry; apply Hend, Hnorm|].
  apply Hend. rewrite Hfwd. exact Hnorm.
Qed.

Lemma branch_end_is_next_position_witness :
  let cfg := LTurtle.mkConfig F32.half F32.one F32.one F32.pi_2 F32.pi_2 F32.f0_9 0 in
  let lt := @LTurtle.process rounded_libm cfg "&" (LTurtle.construct [] []) in
  let lt1 := @LTurtle.process rounded_libm cfg "B" lt in
  let lt2 := @LTurtle.process rounded_libm cfg "B" lt1 in
  LTurtle.forward lt
  = glm.mkvec3 (F32.neg F32.one) (S754_finite false 8388609 (-47)) F32.zero
  /\ exists b1 b2,
      LTurtle.branches lt1 = LTurtle.branches lt ++ [b1]
      /\ branch_start b1 = LTurtle.position lt
      /\ branch_end b1 = LTurtle.position lt1
      /\ LTurtle.branches lt2 = LTurtle.branches lt ++ [b1; b2]
      /\ branch_start b2 = branch_end b1
      /\ branch_end b2 = LTurtle.position lt2.
Proof.
  intros cfg lt. split; [reflexivity|].
  apply (@branch_end_is_next_position rounded_libm cfg lt); reflexivity.
Defined.

(** After a rotation by 0.16 radians about the left axis, sine and cosine
    as the C library returns them, the forward vector is the output of
    [normalize] and its computed length is one unit in the last place
    above 1.0f. The Branch of the next ['B'] then ends at
    position + forward while the agent moves to
    position + normalize(forward): the two differ in the last bits, and
    the Branch of a second ['B'] does not start where the first ended. *)
Lemma branch_chain_breaks_after_rotation :
  let cfg := LTurtle.mkConfig F32.half F32.one F32.one F32.pi_2 f0_16 F32.f0_9 0 in
  let lt := @LTurtle.process rounded_libm cfg "&" (LTurtle.construct [] []) in
  let lt1 := @LTurtle.process rounded_libm cfg "B" lt in
  let lt2 := @LTurtle.process rounded_libm cfg "B" lt1 in
  LTurtle.forward lt
  = glm.mkvec3 (S754_finite true 10691665 (-26))
               (S754_finite false 16562927 (-24)) F32.zero
  /\ glm.length (LTurtle.forward lt) = S754_finite false 8388609 (-23)
  /\ within tolerance (glm.length (LTurtle.forward lt)) F32.one = true
  /\ LTurtle.branches lt1 = [branch_of cfg lt]
  /\ branch_end (branch_of cfg lt) <> LTurtle.position lt1
  /\ LTurtle.branches lt2 = [branch_of cfg lt; branch_of cfg lt1]
  /\ branch_start (branch_of cfg lt1) <> branch_end (branch_of cfg lt).
Proof.
  vm_compute. repeat split; try reflexivity; intros Heq; discriminate Heq.
Qed.

(* ===================================================================== *)
(** ** The frame *)
(* ===================================================================== *)




(* ===================================================================== *)
(** ** The brush width *)
(* ===================================================================== *)

Lemma exec_all_widths `{Libm} cmds tb :
  widths_positive tb -> widths_positive (exec_all cmds tb).
Proof.
  revert tb. induction cmds as [|c cmds IH]; intros tb Hw; [exact Hw|].
  apply IH, exec_widths, Hw.
Qed.

(** C6: [set_brush_width] assigns the width exactly when [width > 0] and
    otherwise returns the agent as it was. Hence a positive current width
    over a stack of positive widths is kept by every operation of the
    agent and by [process] on every symbol, for any config (any decay
    coefficient in particular); and from the initial width 1.0 the brush
    width is positive after any sequence of operations and at the end of
    any [run]. *)
Theorem brush_width_stays_positive `{Libm} :
  (forall w tb,
      TurtleBase.set_brush_width w tb
      = if F32.gt w F32.zero
        then TurtleBase.mk
               (TurtleState.mk (TurtleBase.position tb) (TurtleBase.forward tb)
                               (TurtleBase.left tb) (TurtleBase.up tb) w)
               (TurtleBase.turtleStack tb)
        else tb)
  /\ (forall c tb, widths_positive tb -> widths_positive (exec c tb))
  /\ (forall cfg c lt,
        widths_positive (LTurtle.base lt) ->
        widths_positive (LTurtle.base (LTurtle.process cfg c lt)))
  /\ (forall cmds,
        F32.gt (TurtleBase.brush_width (exec_all cmds TurtleBase.initial)) F32.zero
        = true)
  /\ (forall cfg rules sentence depth bs ls,
        (LTurtle.max_depth cfg < LTurtle.UINT_RANGE)%N ->
        exists lt',
          (forall fuel,
              (enough_fuel cfg depth <= fuel)%nat ->
              LTurtle.run cfg rules fuel sentence depth (LTurtle.construct bs ls)
              = Some lt')
          /\ F32.gt (LTurtle.brush_width lt') F32.zero = true).
Proof.
  split; [|split; [|split; [|split]]].
  - intros w tb. reflexivity.
  - intros c tb. apply exec_widths.
  - intros cfg c lt Hw. rewrite process_base. apply agent_step_widths, Hw.
  - intros cmds. apply (exec_all_widths cmds TurtleBase.initial), initial_widths.
  - intros cfg rules sentence depth bs ls Hmax. eexists. split.
    + intros fuel Hfuel. apply run_levels; [assumption|].
      unfold enough_fuel in Hfuel. lia.
    + apply (interpret_widths cfg _ (LTurtle.construct bs ls)), initial_widths.
Qed.

Lemma brush_width_stays_positive_witness :
  let cfg :=
    LTurtle.mkConfig F32.half F32.one F32.one F32.pi_2 F32.pi_2
                     (F32.neg F32.f0_9) 2 in
  widths_positive (@exec taylor_libm (SetBrushWidth (F32.neg F32.one))
                     (TurtleBase.push TurtleBase.initial))
  /\ widths_positive
       (LTurtle.base (@LTurtle.process taylor_libm cfg "*" (LTurtle.construct [] [])))
  /\ exists lt',
      (forall fuel,
          (enough_fuel cfg 0 <= fuel)%nat ->
          @LTurtle.run taylor_libm cfg {[ "A"%char := "*[A]*"%string ]} fuel "A*" 0
             (LTurtle.construct [] []) = Some lt')
      /\ F32.gt (LTurtle.brush_width lt') F32.zero = true.
Proof.
  intros cfg. split; [|split].
  - apply (proj1 (proj2 (@brush_width_stays_positive taylor_libm))).
    split; [reflexivity|]. repeat constructor.
  - apply (proj1 (proj2 (proj2 (@brush_width_stays_positive taylor_libm)))).
    split; [reflexivity|]. constructor.
  - apply (proj2 (proj2 (proj2 (proj2 (@brush_width_stays_positive taylor_libm))))
             cfg {[ "A"%char := "*[A]*"%string ]} "A*" 0%N [] []).
    reflexivity.
Defined.

(* ===================================================================== *)
(** ** The output vectors *)
(* ===================================================================== *)

Section OutputFrame.
Context `{Libm}.
Variable cfg : LTurtle.Config.
Variable rules : LTurtle.Rules.

Lemma process_prepend bs ls c lt :
  LTurtle.process cfg c (prepend_outputs bs ls lt)
  = prepend_outputs bs ls (LTurtle.process cfg c lt).
Proof.
  destruct lt as [tb bs0 ls0].
  each_symbol c; try reflexivity;
    rewrite ?process_L, ?process_l, ?process_B;
    unfold prepend_outputs; cbn [LTurtle.base LTurtle.branches LTurtle.leaves];
    rewrite <- app_assoc; reflexivity.
Qed.

Lemma for_each_prepend bs ls (body : ascii -> LTurtle.t -> option LTurtle.t) cs :
  (forall c lt, body c (prepend_outputs bs ls lt)
                = option_map (prepend_outputs bs ls) (body c lt)) ->
  forall lt,
    LTurtle.for_each body cs (prepend_outputs bs ls lt)
    = option_map (prepend_outputs bs ls) (LTurtle.for_each body cs lt).
Proof.
  intros Hbody. induction cs as [|c cs IH]; intros lt; [reflexivity|].
  simpl. rewrite Hbody. destruct (body c lt) as [lt1|]; [apply IH|reflexivity].
Qed.

Lemma run_prepend bs ls fuel :
  forall sentence depth lt,
    LTurtle.run cfg rules fuel sentence depth (prepend_outputs bs ls lt)
    = option_map (prepend_outputs bs ls)
        (LTurtle.run cfg rules fuel sentence depth lt).
Proof.
  induction fuel as [|fuel IH]; intros sentence depth lt; [reflexivity|].
  simpl. destruct (depth <? LTurtle.max_depth cfg)%N.
  - apply for_each_prepend. intros c lt0.
    destruct (rules !! c) as [replacement|]; [apply IH|].
    simpl. rewrite process_prepend. reflexivity.
  - apply for_each_prepend. intros c lt0.
    simpl. rewrite process_prepend. reflexivity.
Qed.

Lemma for_each_app (body : ascii -> LTurtle.t -> option LTurtle.t) a b lt :
  LTurtle.for_each body (a ++ b) lt
  = match LTurtle.for_each body a lt with
    | Some lt1 => LTurtle.for_each body b lt1
    | None => None
    end.
Proof.
  revert lt. induction a as [|c a IH]; intros lt; [reflexivity|].
  simpl. destruct (body c lt) as [lt1|]; [apply IH|reflexivity].
Qed.

Lemma list_ascii_of_string_app (s1 s2 : string) :
  list_ascii_of_string (s1 +:+ s2)
  = list_ascii_of_string s1 ++ list_ascii_of_string s2.
Proof. induction s1 as [|c s1 IH]; [reflexivity|]. simpl. rewrite IH. reflexivity. Qed.

(** Any property that [process] keeps on every symbol is kept by a
    [run] that returns. *)
Lemma run_invariant (P : LTurtle.t -> Prop) :
  (forall c lt, P lt -> P (LTurtle.process cfg c lt)) ->
  forall fuel sentence depth lt lt',
    LTurtle.run cfg rules fuel sentence depth lt = Some lt' -> P lt -> P lt'.
Proof.
  intros Hstep. induction fuel as [|fuel IH]; intros sentence depth lt lt' Hrun HP;
    [discriminate Hrun|].
  simpl in Hrun.
  assert (Hloop : forall body,
             (forall c lt0 lt1, body c lt0 = Some lt1 -> P lt0 -> P lt1) ->
             forall cs lt0 lt1,
               LTurtle.for_each body cs lt0 = Some lt1 -> P lt0 -> P lt1).
  { intros body Hbody. induction cs as [|c cs IHcs]; intros lt0 lt1 Hfe HP0.
    - injection Hfe as <-. exact HP0.
    - simpl in Hfe. destruct (body c lt0) as [lt2|] eqn:Hb; [|discriminate Hfe].
      eapply IHcs; [exact Hfe|]. eapply Hbody; eassumption. }
  destruct (depth <? LTurtle.max_depth cfg)%N.
  - eapply Hloop; [|exact Hrun|exact HP].
    intros c lt0 lt1 Hb HP0. cbv beta in Hb.
    destruct (rules !! c) as [replacement|].
    + exact (IH _ _ _ _ Hb HP0).
    + injection Hb as <-. apply Hstep, HP0.
  - eapply Hloop; [|exact Hrun|exact HP].
    intros c lt0 lt1 Hb HP0. injection Hb as <-. apply Hstep, HP0.
Qed.

End OutputFrame.

(** X1: what the caller's vectors hold when [run] starts has no effect on
    what [run] does: started on vectors holding [bs] and [ls] it returns
    the agent, and appends the branches and leaves, that it returns and
    appends when started on empty vectors. *)
Theorem run_ignores_prior_outputs `{Libm} cfg rules fuel sentence depth tb bs ls :
  LTurtle.run cfg rules fuel sentence depth (LTurtle.mk tb bs ls)
  = option_map (prepend_outputs bs ls)
      (LTurtle.run cfg rules fuel sentence depth (LTurtle.mk tb [] [])).
Proof.
  rewrite <- run_prepend. unfold prepend_outputs. simpl.
  rewrite !app_nil_r. reflexivity.
Qed.

(** X2: the vectors are append-only: when [run] returns, the branches and
    the leaves it was given are still there, unchanged and in front of
    whatever was added. *)
Theorem outputs_append_only `{Libm} cfg rules fuel sentence depth lt lt' :
  LTurtle.run cfg rules fuel sentence depth lt = Some lt' ->
  exists new_branches new_leaves,
    LTurtle.branches lt' = LTurtle.branches lt ++ new_branches
    /\ LTurtle.leaves lt' = LTurtle.leaves lt ++ new_leaves.
Proof.
  destruct lt as [tb bs ls]. intros Hrun.
  replace (LTurtle.mk tb bs ls)
    with (prepend_outputs bs ls (LTurtle.mk tb [] [])) in Hrun
    by (unfold prepend_outputs; simpl; rewrite !app_nil_r; reflexivity).
  rewrite run_prepend in Hrun.
  destruct (LTurtle.run cfg rules fuel sentence depth (LTurtle.mk tb [] []))
    as [lt0|]; [|discriminate Hrun].
  injection Hrun as <-.
  exists (LTurtle.branches lt0), (LTurtle.leaves lt0). split; reflexivity.
Qed.

Lemma outputs_append_only_witness :
  let cfg := LTurtle.mkConfig F32.half F32.one F32.one F32.pi_2 F32.pi_2 F32.f0_9 1 in
  let rules : LTurtle.Rules := {[ "A"%char := "B[+L]B"%string ]} in
  let b0 := mkBranch (glm.mkvec3 F32.zero F32.zero F32.zero) F32.one
                     (glm.mkvec3 F32.zero F32.zero F32.zero) F32.one in
  exists lt',
    @LTurtle.run taylor_libm cfg rules 2 "AA" 0 (LTurtle.construct [b0] []) = Some lt'
    /\ exists new_branches new_leaves,
        LTurtle.branches lt' = [b0] ++ new_branches
        /\ LTurtle.leaves lt' = [] ++ new_leaves.
Proof.
  intros cfg rules b0.
  destruct (@LTurtle.run taylor_libm cfg rules 2 "AA" 0 (LTurtle.construct [b0] []))
    as [lt'|] eqn:Hrun; [|vm_compute in Hrun; discriminate Hrun].
  exists lt'. split; [reflexivity|].
  exact (@outputs_append_only taylor_libm cfg rules 2%nat "AA"%string 0%N
           (LTurtle.construct [b0] []) lt' Hrun).
Defined.

(** X3: [run] on a sentence made of two parts is [run] on the first part
    followed, from the turtle it returns, by [run] on the second part at
    the same depth. *)
Theorem run_concat `{Libm} cfg rules fuel (s1 s2 : string) depth lt :
  LTurtle.run cfg rules fuel (s1 +:+ s2) depth lt
  = match LTurtle.run cfg rules fuel s1 depth lt with
    | Some lt1 => LTurtle.run cfg rules fuel s2 depth lt1
    | None => None
    end.
Proof.
  destruct fuel as [|fuel]; [reflexivity|].
  simpl. rewrite list_ascii_of_string_app.
  destruct (depth <? LTurtle.max_depth cfg)%N; apply for_each_app.
Qed.

(** X4: at or beyond the depth ceiling neither the rule table nor the
    depth itself matters: [run] gives the same result with any two rule
    tables and any two such depths. *)
Theorem run_at_ceiling_ignores_rules `{Libm} cfg
    (rules1 rules2 : LTurtle.Rules) fuel sentence depth1 depth2 lt :
  (LTurtle.max_depth cfg <= depth1)%N ->
  (LTurtle.max_depth cfg <= depth2)%N ->
  LTurtle.run cfg rules1 fuel sentence depth1 lt
  = LTurtle.run cfg rules2 fuel sentence depth2 lt.
Proof.
  intros H1 H2. destruct fuel as [|fuel]; [reflexivity|].
  rewrite !run_at_ceiling by assumption. reflexivity.
Qed.

Lemma run_at_ceiling_ignores_rules_witness :
  let cfg := LTurtle.mkConfig F32.half F32.one F32.one F32.pi_2 F32.pi_2 F32.f0_9 0 in
  @LTurtle.run taylor_libm cfg {[ "B"%char := "BB"%string ]} 1 "B+B" 0
     (LTurtle.construct [] [])
  = @LTurtle.run taylor_libm cfg ∅ 1 "B+B" 7 (LTurtle.construct [] []).
Proof.
  intros cfg.
  apply (@run_at_ceiling_ignores_rules taylor_libm cfg); vm_compute; discriminate.
Defined.

Section Counting.
Context `{Libm}.
Variable cfg : LTurtle.Config.

Lemma process_branches c lt :
  LTurtle.branches (LTurtle.process cfg c lt)
  = LTurtle.branches lt
    ++ (if one_of branch_symbols c then [branch_of cfg lt] else []).
Proof. each_symbol c; first [reflexivity | symmetry; apply app_nil_r]. Qed.

Lemma process_leaves c lt :
  LTurtle.leaves (LTurtle.process cfg c lt)
  = LTurtle.leaves lt
    ++ (if one_of leaf_symbols c then [leaf_of cfg lt] else []).
Proof. each_symbol c; first [reflexivity | symmetry; apply app_nil_r]. Qed.

Lemma count_of_cons symbols c cs :
  count_of symbols (c :: cs)
  = ((if one_of symbols c then 1 else 0) + count_of symbols cs)%nat.
Proof. unfold count_of. simpl. destruct (one_of symbols c); reflexivity. Qed.

Lemma interpret_counts cs lt :
  List.length (LTurtle.branches (interpret cfg cs lt))
  = (List.length (LTurtle.branches lt) + count_of branch_symbols cs)%nat
  /\ List.length (LTurtle.leaves (interpret cfg cs lt))
     = (List.length (LTurtle.leaves lt) + count_of leaf_symbols cs)%nat.
Proof.
  revert lt. induction cs as [|c cs IH]; intros lt.
  - unfold count_of. simpl. split; lia.
  - rewrite interpret_cons. destruct (IH (LTurtle.process cfg c lt)) as [Hb Hl].
    rewrite Hb, Hl, process_branches, process_leaves, !count_of_cons, !length_app.
    destruct (one_of branch_symbols c), (one_of leaf_symbols c); simpl; split; lia.
Qed.

End Counting.

(** X5: [run] appends one Branch for each B and one Leaf for each L or l
    among the symbols it interprets, the truncated yield of its sentence,
    and nothing else. *)
Theorem run_output_counts `{Libm} cfg rules sentence depth lt fuel :
  (LTurtle.max_depth cfg < LTurtle.UINT_RANGE)%N ->
  (enough_fuel cfg depth <= fuel)%nat ->
  let interpreted :=
    terminal_yield rules (N.to_nat (LTurtle.max_depth cfg - depth))
                   (list_ascii_of_string sentence) in
  exists lt',
    LTurtle.run cfg rules fuel sentence depth lt = Some lt'
    /\ List.length (LTurtle.branches lt')
       = (List.length (LTurtle.branches lt) + count_of branch_symbols interpreted)%nat
    /\ List.length (LTurtle.leaves lt')
       = (List.length (LTurtle.leaves lt) + count_of leaf_symbols interpreted)%nat.
Proof.
  intros Hmax Hfuel interpreted. eexists. split.
  - apply run_levels; [assumption|]. unfold enough_fuel in Hfuel. lia.
  - apply interpret_counts.
Qed.

Lemma run_output_counts_witness :
  let cfg := LTurtle.mkConfig F32.half F32.one F32.one F32.pi_2 F32.pi_2 F32.f0_9 2 in
  let rules : LTurtle.Rules := {[ "A"%char := "B[+AL]"%string ]} in
  exists lt',
    @LTurtle.run taylor_libm cfg rules 3 "A" 0 (LTurtle.construct [] []) = Some lt'
    /\ List.length (LTurtle.branches lt') = 2%nat
    /\ List.length (LTurtle.leaves lt') = 2%nat.
Proof.
  intros cfg rules.
  apply (@run_output_counts taylor_libm cfg rules "A" 0%N (LTurtle.construct [] [])
           3%nat); [reflexivity | vm_compute; lia].
Defined.

Section Steering.
Context `{Libm}.
Variable cfg : LTurtle.Config.

Lemma agent_step_undraw c tb :
  agent_step cfg (undraw c) tb = agent_step cfg c tb.
Proof. each_symbol c; reflexivity. Qed.

Lemma undraw_emits_nothing c lt :
  LTurtle.branches (LTurtle.process cfg (undraw c) lt) = LTurtle.branches lt
  /\ LTurtle.leaves (LTurtle.process cfg (undraw c) lt) = LTurtle.leaves lt.
Proof. each_symbol c; split; reflexivity. Qed.

End Steering.

(** X6: drawing does not steer the agent. Replacing every L, l and B of a
    sequence by M leaves the agent where the original sequence leaves it
    (position, frame, brush width and stack), and emits nothing. *)
Theorem drawing_does_not_steer `{Libm} cfg cs lt :
  LTurtle.base (interpret cfg (map undraw cs) lt)
  = LTurtle.base (interpret cfg cs lt)
  /\ LTurtle.branches (interpret cfg (map undraw cs) lt) = LTurtle.branches lt
  /\ LTurtle.leaves (interpret cfg (map undraw cs) lt) = LTurtle.leaves lt.
Proof.
  split.
  - rewrite !interpret_base. generalize (LTurtle.base lt) as tb.
    induction cs as [|c cs IH]; intros tb; [reflexivity|].
    change (map undraw (c :: cs)) with (undraw c :: map undraw cs).
    rewrite !steps_cons, agent_step_undraw. apply IH.
  - revert lt. induction cs as [|c cs IH]; intros lt; [split; reflexivity|].
    change (map undraw (c :: cs)) with (undraw c :: map undraw cs).
    rewrite interpret_cons.
    destruct (IH (LTurtle.process cfg (undraw c) lt)) as [Hb Hl].
    destruct (undraw_emits_nothing cfg c lt) as [Hb0 Hl0].
    rewrite Hb, Hl, Hb0, Hl0. split; reflexivity.
Qed.

Lemma for_each_filter (p : ascii -> bool)
    (body : ascii -> LTurtle.t -> option LTurtle.t) cs :
  (forall c lt, p c = false -> body c lt = Some lt) ->
  forall lt,
    LTurtle.for_each body cs lt = LTurtle.for_each body (List.filter p cs) lt.
Proof.
  intros Hskip. induction cs as [|c cs IH]; intros lt; [reflexivity|].
  simpl. destruct (p c) eqn:Hp.
  - simpl. destruct (body c lt) as [lt1|]; [apply IH|reflexivity].
  - rewrite (Hskip c lt Hp). apply IH.
Qed.

(** X7: when no symbol outside the command table has a rule, such symbols
    can be struck from the sentence: [run] on the sentence and [run] on
    the sentence without them return the same turtle, with the same
    fuel. *)
Theorem run_skips_unknown_symbols `{Libm} cfg (rules : LTurtle.Rules)
    fuel sentence depth lt :
  (forall c, is_command c = false -> rules !! c = None) ->
  LTurtle.run cfg rules fuel sentence depth lt
  = LTurtle.run cfg rules fuel
      (string_of_list_ascii (List.filter is_command (list_ascii_of_string sentence)))
      depth lt.
Proof.
  intros Hrules. destruct fuel as [|fuel]; [reflexivity|].
  simpl. rewrite list_ascii_of_string_of_list_ascii.
  destruct (depth <? LTurtle.max_depth cfg)%N; apply for_each_filter.
  - intros c lt0 Hc. rewrite (Hrules c Hc), process_not_command by assumption.
    reflexivity.
  - intros c lt0 Hc. rewrite process_not_command by assumption. reflexivity.
Qed.

Lemma run_skips_unknown_symbols_witness :
  let cfg := LTurtle.mkConfig F32.half F32.one F32.one F32.pi_2 F32.pi_2 F32.f0_9 1 in
  let rules : LTurtle.Rules := {[ "B"%char := "xB yB"%string ]} in
  @LTurtle.run taylor_libm cfg rules 2 "F B,B;" 0 (LTurtle.construct [] [])
  = @LTurtle.run taylor_libm cfg rules 2 "BB" 0 (LTurtle.construct [] []).
Proof.
  intros cfg rules.
  apply (@run_skips_unknown_symbols taylor_libm cfg rules 2%nat "F B,B;"%string).
  intros c Hc. apply lookup_singleton_ne. intros <-. discriminate Hc.
Defined.

Section StackHeight.
Context `{Libm}.
Variable cfg : LTurtle.Config.

Lemma agent_step_height c tb :
  let h := List.length (TurtleBase.turtleStack tb) in
  let h' := List.length (TurtleBase.turtleStack (agent_step cfg c tb)) in
  (h' <= h + (if one_of ["["]%char c then 1 else 0))%nat
  /\ (h <= h' + (if one_of ["]"]%char c then 1 else 0))%nat.
Proof.
  cbv zeta. destruct (symbol_bracket c) eqn:Hk.
  - rewrite (symbol_open c Hk).
    change (agent_step cfg "[" tb) with (TurtleBase.push tb).
    change (one_of ["["]%char "["%char) with true.
    change (one_of ["]"]%char "["%char) with false.
    unfold TurtleBase.push. cbn [TurtleBase.turtleStack List.length]. lia.
  - rewrite (symbol_close c Hk).
    change (agent_step cfg "]" tb) with (TurtleBase.pop tb).
    change (one_of ["["]%char "]"%char) with false.
    change (one_of ["]"]%char "]"%char) with true.
    unfold TurtleBase.pop.
    destruct (TurtleBase.turtleStack tb) as [|top st] eqn:Hstack;
      cbn [TurtleBase.turtleStack List.length]; rewrite ?Hstack;
      cbn [List.length]; lia.
  - rewrite agent_step_plain_stack by assumption.
    destruct (one_of ["["]%char c), (one_of ["]"]%char c); lia.
Qed.

End StackHeight.

(** X8: the state stack grows by at most one entry for each [ that is
    interpreted and shrinks by at most one for each ]; a sequence without
    brackets leaves its height as it is. *)
Theorem stack_height_bounds `{Libm} cfg cs lt :
  let h := List.length (TurtleBase.turtleStack (LTurtle.base lt)) in
  let h' := List.length (TurtleBase.turtleStack (LTurtle.base (interpret cfg cs lt))) in
  (h' <= h + count_of ["["]%char cs)%nat
  /\ (h <= h' + count_of ["]"]%char cs)%nat.
Proof.
  cbv zeta. rewrite interpret_base. generalize (LTurtle.base lt) as tb.
  induction cs as [|c cs IH]; intros tb.
  - unfold count_of. simpl. lia.
  - rewrite steps_cons, !count_of_cons.
    destruct (IH (agent_step cfg c tb)) as [Hup Hdown].
    destruct (agent_step_height cfg c tb) as [Hup0 Hdown0]. lia.
Qed.

(** X9: the guard of [set_brush_width] by the class of the float: a NaN,
    a zero of either sign and every negative value, minus infinity
    included, leave the agent untouched; every positive finite value and
    plus infinity become the brush width. *)
Theorem set_brush_width_by_class (w : float) (tb : TurtleBase.t) :
  (accepted_width w = false -> TurtleBase.set_brush_width w tb = tb)
  /\ (accepted_width w = true ->
      TurtleBase.brush_width (TurtleBase.set_brush_width w tb) = w).
Proof.
  split; intros Hw; destruct w as [s|s| |s m e]; try destruct s;
    try discriminate Hw; reflexivity.
Qed.

Lemma set_brush_width_by_class_witness :
  TurtleBase.set_brush_width S754_nan TurtleBase.initial = TurtleBase.initial
  /\ TurtleBase.set_brush_width (S754_zero true) TurtleBase.initial
     = TurtleBase.initial
  /\ TurtleBase.brush_width
       (TurtleBase.set_brush_width (S754_infinity false) TurtleBase.initial)
     = S754_infinity false.
Proof.
  split; [|split].
  - apply (proj1 (set_brush_width_by_class S754_nan TurtleBase.initial)).
    reflexivity.
  - apply (proj1 (set_brush_width_by_class (S754_zero true) TurtleBase.initial)).
    reflexivity.
  - apply (proj2 (set_brush_width_by_class (S754_infinity false) TurtleBase.initial)).
    reflexivity.
Defined.

(** X10: of two calls of [set_brush_width] in a row the second one wins
    whenever its width passes the guard, and a call repeated changes
    nothing more. *)
Theorem set_brush_width_twice (w1 w2 : float) (tb : TurtleBase.t) :
  (F32.gt w2 F32.zero = true ->
   TurtleBase.set_brush_width w2 (TurtleBase.set_brush_width w1 tb)
   = TurtleBase.set_brush_width w2 tb)
  /\ TurtleBase.set_brush_width w1 (TurtleBase.set_brush_width w1 tb)
     = TurtleBase.set_brush_width w1 tb.
Proof.
  unfold TurtleBase.set_brush_width. split.
  - intros Hw2. rewrite Hw2. destruct (F32.gt w1 F32.zero); rewrite ?Hw2;
      reflexivity.
  - destruct (F32.gt w1 F32.zero) eqn:Hw1; rewrite ?Hw1; reflexivity.
Qed.

Lemma set_brush_width_twice_witness :
  TurtleBase.set_brush_width F32.half
    (TurtleBase.set_brush_width F32.two TurtleBase.initial)
  = TurtleBase.set_brush_width F32.half TurtleBase.initial.
Proof.
  apply (proj1 (set_brush_width_twice F32.two F32.half TurtleBase.initial)).
  reflexivity.
Defined.

Section BalancedFrame.
Context `{Libm}.
Variable cfg : LTurtle.Config.

(** A symbol other than a bracket acts on the current state alone. *)
Lemma agent_step_plain_frame c s st :
  symbol_bracket c = Plain ->
  agent_step cfg c (TurtleBase.mk s st)
  = TurtleBase.mk
      (TurtleBase.currentState (agent_step cfg c (TurtleBase.mk s []))) st.
Proof.
  each_symbol c; intros Hk; try discriminate Hk; try reflexivity.
  change (agent_step cfg "*" (TurtleBase.mk s st))
    with (TurtleBase.set_brush_width
            (LTurtle.brush_decay_coef cfg * TurtleState.brushWidth s)%f32
            (TurtleBase.mk s st)).
  change (agent_step cfg "*" (TurtleBase.mk s []))
    with (TurtleBase.set_brush_width
            (LTurtle.brush_decay_coef cfg * TurtleState.brushWidth s)%f32
            (TurtleBase.mk s [])).
  unfold TurtleBase.set_brush_width.
  destruct (F32.gt _ F32.zero); reflexivity.
Qed.

Lemma balanced_steps_frame cs :
  balanced symbol_bracket cs ->
  forall s, exists s', forall st,
    steps (agent_step cfg) cs (TurtleBase.mk s st) = TurtleBase.mk s' st.
Proof.
  induction 1 as [|c cs Hc _ IH|o body c rest Ho Hc Hbody _ _ IHrest]; intros s.
  - exists s. reflexivity.
  - destruct (IH (TurtleBase.currentState
                    (agent_step cfg c (TurtleBase.mk s [])))) as [s' Hs'].
    exists s'. intros st.
    rewrite steps_cons, agent_step_plain_frame by assumption. apply Hs'.
  - destruct (IHrest s) as [s' Hs']. exists s'. intros st.
    change (o :: body ++ c :: rest) with ((o :: body) ++ [c] ++ rest).
    rewrite app_assoc, steps_app.
    change ((o :: body) ++ [c]) with (o :: body ++ [c]).
    rewrite (group_restores symbol_bracket (agent_step cfg)); try assumption.
    + apply Hs'.
    + intros c0 tb0. apply agent_step_open.
    + intros c0 tb0. apply agent_step_close.
    + intros c0 tb0. apply agent_step_plain_stack.
Qed.

End BalancedFrame.

(** X11: a balanced sequence of symbols works on the current state alone:
    the state it ends in is the same whatever the stack holds when it
    starts, and it hands that stack back untouched. *)
Theorem balanced_ignores_stack `{Libm} cfg cs s :
  balanced symbol_bracket cs ->
  exists s', forall st bs ls,
    LTurtle.base (interpret cfg cs (LTurtle.mk (TurtleBase.mk s st) bs ls))
    = TurtleBase.mk s' st.
Proof.
  intros Hbal. destruct (balanced_steps_frame cfg cs Hbal s) as [s' Hs'].
  exists s'. intros st bs ls. rewrite interpret_base. apply Hs'.
Qed.

Lemma balanced_ignores_stack_witness :
  let cfg := LTurtle.mkConfig F32.half F32.one F32.one F32.pi_2 F32.pi_2 F32.f0_9 0 in
  exists s', forall st bs ls,
    LTurtle.base
      (@interpret taylor_libm cfg (list_ascii_of_string "M[*B]L")
         (LTurtle.mk (TurtleBase.mk TurtleState.initial st) bs ls))
    = TurtleBase.mk s' st.
Proof.
  intros cfg.
  apply (@balanced_ignores_stack taylor_libm cfg).
  apply balanced_plain; [reflexivity|].
  apply (balanced_group symbol_bracket "["%char ["*"; "B"]%char "]"%char ["L"%char]);
    try reflexivity.
  - apply balanced_plain; [reflexivity|].
    apply balanced_plain; [reflexivity|]. apply balanced_nil.
  - apply balanced_plain; [reflexivity|]. apply balanced_nil.
Defined.

Section PrimitiveSizes.
Context `{Libm}.
Variable cfg : LTurtle.Config.

Lemma process_sizes c lt :
  sizes_from_widths cfg lt -> sizes_from_widths cfg (LTurtle.process cfg c lt).
Proof.
  intros (Hw & Hb & Hl). split; [|split].
  - rewrite process_base. apply agent_step_widths, Hw.
  - rewrite process_branches. apply Forall_app. split; [exact Hb|].
    destruct (one_of branch_symbols c); constructor; [|constructor].
    exists (LTurtle.brush_width lt). split; [apply Hw|]. split; reflexivity.
  - rewrite process_leaves. apply Forall_app. split; [exact Hl|].
    destruct (one_of leaf_symbols c); constructor; [|constructor].
    exists (LTurtle.brush_width lt). split; [apply Hw|]. reflexivity.
Qed.

End PrimitiveSizes.

(** X12: every Branch and every Leaf that a run from a freshly constructed
    turtle adds is sized from a brush width that was positive when it was
    added: radii (radius * w, decay * radius * w), leaf size
    (leaf_size * w, leaf_size * w * 2), with w > 0. *)
Theorem primitives_sized_from_positive_width `{Libm} cfg rules fuel sentence depth lt' :
  LTurtle.run cfg rules fuel sentence depth (LTurtle.construct [] []) = Some lt' ->
  Forall (branch_from_width cfg) (LTurtle.branches lt')
  /\ Forall (leaf_from_width cfg) (LTurtle.leaves lt').
Proof.
  intros Hrun.
  apply (run_invariant cfg rules (sizes_from_widths cfg) (process_sizes cfg)
           fuel sentence depth _ _ Hrun).
  split; [apply initial_widths|]. split; constructor.
Qed.

Lemma primitives_sized_from_positive_width_witness :
  let cfg :=
    LTurtle.mkConfig F32.half F32.one F32.one F32.pi_2 F32.pi_2 (F32.neg F32.f0_9) 1 in
  let rules : LTurtle.Rules := {[ "A"%char := "*B[*L]"%string ]} in
  exists lt',
    @LTurtle.run taylor_libm cfg rules 2 "AB" 0 (LTurtle.construct [] []) = Some lt'
    /\ Forall (branch_from_width cfg) (LTurtle.branches lt')
    /\ Forall (leaf_from_width cfg) (LTurtle.leaves lt').
Proof.
  intros cfg rules.
  destruct (@LTurtle.run taylor_libm cfg rules 2 "AB" 0 (LTurtle.construct [] []))
    as [lt'|] eqn:Hrun; [|vm_compute in Hrun; discriminate Hrun].
  exists lt'. split; [reflexivity|].
  exact (@primitives_sized_from_positive_width taylor_libm cfg rules 2%nat
           "AB"%string 0%N lt' Hrun).
Defined.

Section Footprints.
Context `{Libm}.
Variable cfg : LTurtle.Config.

Lemma agent_step_star tb :
  agent_step cfg "*" tb
  = TurtleBase.set_brush_width
      (LTurtle.brush_decay_coef cfg * TurtleBase.brush_width tb)%f32 tb.
Proof. reflexivity. Qed.

Lemma agent_step_position c tb :
  one_of position_writers c = false ->
  TurtleBase.position (agent_step cfg c tb) = TurtleBase.position tb.
Proof.
  each_symbol c; intros Hc; try discriminate Hc; try reflexivity.
  rewrite agent_step_star. unfold TurtleBase.set_brush_width.
  destruct (F32.gt _ F32.zero); reflexivity.
Qed.

Lemma agent_step_frame c tb :
  one_of frame_writers c = false ->
  TurtleBase.forward (agent_step cfg c tb) = TurtleBase.forward tb
  /\ TurtleBase.left (agent_step cfg c tb) = TurtleBase.left tb
  /\ TurtleBase.up (agent_step cfg c tb) = TurtleBase.up tb.
Proof.
  each_symbol c; intros Hc; try discriminate Hc;
    try (split; [|split]; reflexivity).
  rewrite agent_step_star. unfold TurtleBase.set_brush_width.
  destruct (F32.gt _ F32.zero); split; [|split| |split]; reflexivity.
Qed.

Lemma agent_step_width c tb :
  one_of width_writers c = false ->
  TurtleBase.brush_width (agent_step cfg c tb) = TurtleBase.brush_width tb.
Proof. each_symbol c; intros Hc; try discriminate Hc; reflexivity. Qed.

(** A field that only the symbols of [writers] can change is unchanged
    by a sequence that has none of them. *)
Lemma steps_untouched {A : Type} (field : TurtleBase.t -> A) writers :
  (forall c tb, one_of writers c = false ->
                field (agent_step cfg c tb) = field tb) ->
  forall cs tb,
    none_of writers cs = true ->
    field (steps (agent_step cfg) cs tb) = field tb.
Proof.
  intros Hstep. induction cs as [|c cs IH]; intros tb Hnone; [reflexivity|].
  unfold none_of in Hnone. simpl in Hnone.
  apply andb_true_iff in Hnone. destruct Hnone as [Hc Hcs].
  apply negb_true_iff in Hc.
  rewrite steps_cons, IH by exact Hcs. apply Hstep, Hc.
Qed.

End Footprints.

(** X13: which symbols can change what. A sequence without L, l, B, M
    and ] leaves the position where it is; one without +, -, &, ^ and ]
    leaves forward, left and up as they are; one without * and ] leaves
    the brush width as it is. *)
Theorem symbol_footprints `{Libm} cfg cs lt :
  (none_of position_writers cs = true ->
   LTurtle.position (interpret cfg cs lt) = LTurtle.position lt)
  /\ (none_of frame_writers cs = true ->
      LTurtle.forward (interpret cfg cs lt) = LTurtle.forward lt
      /\ LTurtle.left (interpret cfg cs lt) = LTurtle.left lt
      /\ LTurtle.up (interpret cfg cs lt) = LTurtle.up lt)
  /\ (none_of width_writers cs = true ->
      LTurtle.brush_width (interpret cfg cs lt) = LTurtle.brush_width lt).
Proof.
  unfold LTurtle.position, LTurtle.forward, LTurtle.left, LTurtle.up,
    LTurtle.brush_width.
  rewrite interpret_base. split; [|split].
  - apply (steps_untouched cfg TurtleBase.position), agent_step_position.
  - intros Hnone. split; [|split].
    + apply (steps_untouched cfg TurtleBase.forward frame_writers);
        [intros c tb Hc; apply (agent_step_frame cfg c tb Hc)|exact Hnone].
    + apply (steps_untouched cfg TurtleBase.left frame_writers);
        [intros c tb Hc; apply (agent_step_frame cfg c tb Hc)|exact Hnone].
    + apply (steps_untouched cfg TurtleBase.up frame_writers);
        [intros c tb Hc; apply (agent_step_frame cfg c tb Hc)|exact Hnone].
  - apply (steps_untouched cfg TurtleBase.brush_width), agent_step_width.
Qed.

Lemma symbol_footprints_witness :
  let cfg := LTurtle.mkConfig F32.half F32.one F32.one F32.pi_2 F32.pi_2 F32.f0_9 0 in
  let lt := LTurtle.construct [] [] in
  LTurtle.position (@interpret taylor_libm cfg (list_ascii_of_string "+[&*^-") lt)
  = LTurtle.position lt
  /\ LTurtle.forward (@interpret taylor_libm cfg (list_ascii_of_string "B[*ML") lt)
     = LTurtle.forward lt
  /\ LTurtle.brush_width (@interpret taylor_libm cfg (list_ascii_of_string "B+[L&M") lt)
     = LTurtle.brush_width lt.
Proof.
  intros cfg lt. split; [|split].
  - apply (proj1 (@symbol_footprints taylor_libm cfg _ lt)). reflexivity.
  - apply (proj1 (proj2 (@symbol_footprints taylor_libm cfg _ lt))). reflexivity.
  - apply (proj2 (proj2 (@symbol_footprints taylor_libm cfg _ lt))). reflexivity.
Defined.

(** X14: with a forward vector of computed length 1.0f, [move] adds
    exactly [distance * forward] to the position, for any distance, and
    touches nothing else. *)
Theorem move_along_unit_forward (distance : float) (tb : TurtleBase.t) :
  glm.length (TurtleBase.forward tb) = F32.one ->
  F32.valid (glm.x (TurtleBase.forward tb)) = true ->
  F32.valid (glm.y (TurtleBase.forward tb)) = true ->
  F32.valid (glm.z (TurtleBase.forward tb)) = true ->
  TurtleBase.move distance tb
  = TurtleBase.mk
      (TurtleState.mk
         (glm.vadd (TurtleBase.position tb)
                   (glm.smul distance (TurtleBase.forward tb)))
         (TurtleBase.forward tb) (TurtleBase.left tb) (TurtleBase.up tb)
         (TurtleBase.brush_width tb))
      (TurtleBase.turtleStack tb).
Proof.
  intros Hlen Hx Hy Hz. unfold TurtleBase.move.
  unfold TurtleBase.forward in *. rewrite (normalize_unit _ Hlen Hx Hy Hz).
  reflexivity.
Qed.

Lemma move_along_unit_forward_witness :
  TurtleBase.position (TurtleBase.move F32.half TurtleBase.initial)
  = glm.mkvec3 F32.zero F32.half F32.zero.
Proof.
  rewrite (move_along_unit_forward F32.half TurtleBase.initial);
    reflexivity.
Defined.

(** X15: l is a synonym of L: writing one for the other anywhere in a
    sequence changes nothing in what [process] does with it. *)
Theorem leaf_symbols_are_synonyms `{Libm} cfg cs lt :
  interpret cfg
    (map (fun c => if Ascii.eqb c "l"%char then "L"%char else c) cs) lt
  = interpret cfg cs lt.
Proof.
  revert lt. induction cs as [|c cs IH]; intros lt; [reflexivity|].
  change (map ?f (c :: cs)) with (f c :: map f cs).
  rewrite !interpret_cons, IH. f_equal.
  destruct (Ascii.eqb_spec c "l"%char) as [->|_]; reflexivity.
Qed.

Section BalancedGrammar.
Variable rules : LTurtle.Rules.

Lemma balanced_app (a b : list ascii) :
  balanced symbol_bracket a -> balanced symbol_bracket b ->
  balanced symbol_bracket (a ++ b).
Proof.
  intros Ha Hb. induction Ha as [|c s Hc _ IH|o body c s Ho Hc Hbody _ _ IHs].
  - exact Hb.
  - simpl. apply balanced_plain; assumption.
  - simpl. rewrite <- app_assoc. simpl. apply balanced_group; assumption.
Qed.

Hypothesis open_has_no_rule : rules !! "["%char = None.
Hypothesis close_has_no_rule : rules !! "]"%char = None.
Hypothesis replacements_balanced :
  forall c replacement,
    rules !! c = Some replacement ->
    balanced symbol_bracket (list_ascii_of_string replacement).

(** Rewriting with balanced replacements keeps a sequence balanced. *)
Lemma terminal_yield_balanced n :
  forall cs,
    balanced symbol_bracket cs ->
    balanced symbol_bracket (terminal_yield rules n cs).
Proof.
  induction n as [|n IHn]; intros cs Hcs; [exact Hcs|].
  simpl.
  induction Hcs as [|c s Hc _ IH|o body c s Ho Hc _ IHbody _ IHs].
  - apply balanced_nil.
  - simpl. apply balanced_app; [|exact IH].
    destruct (rules !! c) as [replacement|] eqn:Hrule.
    + apply IHn, (replacements_balanced c), Hrule.
    + apply balanced_plain; [exact Hc|apply balanced_nil].
  - simpl. rewrite flat_map_app. simpl.
    rewrite (symbol_open o Ho), (symbol_close c Hc),
      open_has_no_rule, close_has_no_rule.
    simpl. apply balanced_group; try reflexivity; assumption.
Qed.

End BalancedGrammar.

(** X16: a well-bracketed grammar never leaks stack entries. When the
    sentence and every replacement are balanced and the brackets
    themselves have no rule, [run] returns with the stack exactly as it
    found it. *)
Theorem balanced_grammar_keeps_stack `{Libm} cfg (rules : LTurtle.Rules)
    sentence depth lt fuel :
  (LTurtle.max_depth cfg < LTurtle.UINT_RANGE)%N ->
  (enough_fuel cfg depth <= fuel)%nat ->
  rules !! "["%char = None ->
  rules !! "]"%char = None ->
  (forall c replacement,
      rules !! c = Some replacement ->
      balanced symbol_bracket (list_ascii_of_string replacement)) ->
  balanced symbol_bracket (list_ascii_of_string sentence) ->
  exists lt',
    LTurtle.run cfg rules fuel sentence depth lt = Some lt'
    /\ TurtleBase.turtleStack (LTurtle.base lt')
       = TurtleBase.turtleStack (LTurtle.base lt).
Proof.
  intros Hmax Hfuel Hopen Hclose Hrules Hsentence. eexists. split.
  - apply run_levels; [assumption|]. unfold enough_fuel in Hfuel. lia.
  - rewrite interpret_base.
    apply (balanced_stack symbol_bracket (agent_step cfg)).
    + intros c tb. apply agent_step_open.
    + intros c tb. apply agent_step_close.
    + intros c tb. apply agent_step_plain_stack.
    + apply terminal_yield_balanced; assumption.
Qed.

Lemma balanced_grammar_keeps_stack_witness :
  let cfg := LTurtle.mkConfig F32.half F32.one F32.one F32.pi_2 F32.pi_2 F32.f0_9 2 in
  let rules : LTurtle.Rules := {[ "A"%char := "B[+A]A"%string ]} in
  exists lt',
    @LTurtle.run taylor_libm cfg rules 3 "A[A]" 0 (LTurtle.construct [] []) = Some lt'
    /\ TurtleBase.turtleStack (LTurtle.base lt') = [].
Proof.
  intros cfg rules.
  apply (@balanced_grammar_keeps_stack taylor_libm cfg rules "A[A]"%string 0%N
           (LTurtle.construct [] []) 3%nat).
  - reflexivity.
  - vm_compute. lia.
  - reflexivity.
  - reflexivity.
  - intros c replacement Hrule.
    apply lookup_singleton_Some in Hrule. destruct Hrule as [_ <-].
    apply balanced_plain; [reflexivity|].
    apply (balanced_group symbol_bracket "["%char ["+"; "A"]%char "]"%char ["A"%char]);
      try reflexivity.
    + apply balanced_plain; [reflexivity|].
      apply balanced_plain; [reflexivity|]. apply balanced_nil.
    + apply balanced_plain; [reflexivity|]. apply balanced_nil.
  - apply balanced_plain; [reflexivity|].
    apply (balanced_group symbol_bracket "["%char ["A"%char] "]"%char []);
      try reflexivity.
    + apply balanced_plain; [reflexivity|]. apply balanced_nil.
    + apply balanced_nil.
Defined.
